(** * pycoolmaster: a shallow embedding of [pycoolmaster/__init__.py]

    The module talks to a CoolMaster HVAC bridge over RS232.  The embedding
    follows the source: [Py] holds the Python builtins the module calls,
    [serial] the part of pyserial it drives, [CoolMaster] and
    [CoolMasterDevice] the two classes.  Methods are state-passing functions
    that return a [result]; a raised exception keeps every mutation made
    before it, as in Python. *)

From Stdlib Require Import Bool Arith ZArith QArith Lia List.
From Stdlib Require Import Ascii String DecimalString.
Import ListNotations.
Open Scope string_scope.

(** ** Python builtins *)

Module Py.

(** A Python [str] is a [string]; its characters are code points below 256
    (every code point from 128 on behaves alike for this program, which
    only ever encodes to and decodes from ASCII). *)

Definition CR : ascii := "013"%char.
Definition LF : ascii := "010"%char.
Definition CRLF : string := String CR (String LF "").

(** [str.isspace] on one character: TAB..CR, FS..US, space, NEL, NBSP.  It is
    the class that [str.strip()] removes and that [\s] matches in a [str]
    pattern. *)
Definition isspace (c : ascii) : bool :=
  let n := N_of_ascii c in
  (((9 <=? n) && (n <=? 13)) || ((28 <=? n) && (n <=? 32))
   || (n =? 133) || (n =? 160))%N.

Definition isdigit (c : ascii) : bool :=
  let n := N_of_ascii c in ((48 <=? n) && (n <=? 57))%N.

Fixpoint rev_onto (s acc : string) : string :=
  match s with
  | "" => acc
  | String c s' => rev_onto s' (String c acc)
  end.

Definition reversed (s : string) : string := rev_onto s "".

Fixpoint lstrip (s : string) : string :=
  match s with
  | "" => ""
  | String c s' => if isspace c then lstrip s' else s
  end.

Definition rstrip (s : string) : string := reversed (lstrip (reversed s)).

(** [s.strip()] *)
Definition strip (s : string) : string := rstrip (lstrip s).

(** [s[:n]] for [n >= 0] *)
Fixpoint take (n : nat) (s : string) : string :=
  match n, s with
  | S n', String c s' => String c (take n' s')
  | _, _ => ""
  end.

(** [s[n:]] for [n >= 0] *)
Fixpoint drop (n : nat) (s : string) : string :=
  match n, s with
  | S n', String _ s' => drop n' s'
  | _, _ => s
  end.

(** [s[:-k]] for [k > 0]: everything but the last [k] characters, the empty
    string when [s] is shorter. *)
Definition slice_to_neg (k : nat) (s : string) : string :=
  take (length s - k) s.

(** [s[-1]]: [None] stands for the IndexError on an empty string. *)
Definition last_char (s : string) : option ascii :=
  match s with
  | "" => None
  | _ => get (length s - 1) s
  end.

(** [s.endswith(suffix)] *)
Definition endswith (s suffix : string) : bool :=
  (length suffix <=? length s)%nat
  && (drop (length s - length suffix) s =? suffix).

Definition lower_char (c : ascii) : ascii :=
  let n := N_of_ascii c in
  if (((65 <=? n) && (n <=? 90))
      || ((192 <=? n) && (n <=? 222) && negb (n =? 215)))%N
  then ascii_of_N (n + 32) else c.

(** [s.lower()] *)
Fixpoint lower (s : string) : string :=
  match s with
  | "" => ""
  | String c s' => String (lower_char c) (lower s')
  end.

(** [s.replace(old, new)] for a non-empty [old]: occurrences are replaced
    left to right and the inserted text is not scanned again.  [skip] counts
    the characters of a matched [old] still to be passed over. *)
Fixpoint replace_from (old new : string) (skip : nat) (s : string) : string :=
  match s with
  | "" => ""
  | String c s' =>
      match skip with
      | S k => replace_from old new k s'
      | O =>
          if prefix old s
          then new ++ replace_from old new (length old - 1) s'
          else String c (replace_from old new 0 s')
      end
  end.

Definition replace (old new s : string) : string := replace_from old new 0 s.

(** [s.split(sep)] for a non-empty [sep]. *)
Fixpoint split_from (sep : string) (skip : nat) (s : string) : list string :=
  match s with
  | "" => [""]
  | String c s' =>
      match skip with
      | S k => split_from sep k s'
      | O =>
          if prefix sep s
          then "" :: split_from sep (length sep - 1) s'
          else match split_from sep 0 s' with
               | tok :: rest => String c tok :: rest
               | [] => [String c ""]
               end
      end
  end.

Definition split (sep s : string) : list string := split_from sep 0 s.

(** [re.split(r"\s+", s)]: the pieces between maximal runs of whitespace,
    empty pieces at the ends included.  [in_run] says that the previous
    character belonged to a run already split on. *)
Fixpoint re_split_ws_from (in_run : bool) (s : string) : list string :=
  match s with
  | "" => [""]
  | String c s' =>
      if isspace c
      then (if in_run then re_split_ws_from true s'
            else "" :: re_split_ws_from true s')
      else match re_split_ws_from false s' with
           | tok :: rest => String c tok :: rest
           | [] => [String c ""]
           end
  end.

Definition re_split_ws (s : string) : list string := re_split_ws_from false s.

(** [sep.join(items)] *)
Fixpoint join (sep : string) (items : list string) : string :=
  match items with
  | [] => ""
  | [x] => x
  | x :: rest => x ++ sep ++ join sep rest
  end.

(** [x in items] for a list of strings *)
Definition contains (items : list string) (x : string) : bool :=
  existsb (String.eqb x) items.

(** A [dict] with [str] keys as an association list in insertion order. *)
Fixpoint dict_get {V : Type} (d : list (string * V)) (k : string) : option V :=
  match d with
  | [] => None
  | (k', v) :: d' => if k =? k' then Some v else dict_get d' k
  end.

Definition dict_keys {V : Type} (d : list (string * V)) : list string :=
  map fst d.

Definition dict_contains {V : Type} (d : list (string * V)) (k : string) : bool :=
  contains (dict_keys d) k.

(** [all(ord(c) < 128 for c in s)]: what [str.encode("ascii")] and
    [bytes.decode("ascii")] require. *)
Fixpoint isascii (s : string) : bool :=
  match s with
  | "" => true
  | String c s' => (N_of_ascii c <? 128)%N && isascii s'
  end.

(** *** [float(s)]

    The value of a finite literal is kept as the exact rational the text
    denotes; the double Python returns is that rational rounded to nearest,
    a function of it, so equal rationals give equal doubles. *)
Inductive pyfloat : Type :=
  | Finite (q : Q)
  | Inf (negative : bool)
  | NaN.

(** Underscores may only stand between two digits; they are dropped. *)
Fixpoint drop_underscores (prev : ascii) (s : string) : option string :=
  match s with
  | "" => if (prev =? "_")%char then None else Some ""
  | String c s' =>
      if (c =? "_")%char
      then (if isdigit prev then drop_underscores c s' else None)
      else if (prev =? "_")%char && negb (isdigit c) then None
      else option_map (String c) (drop_underscores c s')
  end.

Fixpoint span_digits (s : string) : string * string :=
  match s with
  | "" => ("", "")
  | String c s' =>
      if isdigit c
      then let (d, r) := span_digits s' in (String c d, r)
      else ("", s)
  end.

Fixpoint digits_value (acc : Z) (s : string) : Z :=
  match s with
  | "" => acc
  | String c s' => digits_value (10 * acc + (Z.of_N (N_of_ascii c) - 48)) s'
  end.

(** [m * 10^e] in lowest terms *)
Definition scale10 (m e : Z) : Q :=
  Qred (if (0 <=? e)%Z then (m * 10 ^ e) # 1
        else m # Z.to_pos (10 ^ (- e))).

Definition split_sign (s : string) : bool * string :=
  match s with
  | String "-" r => (true, r)
  | String "+" r => (false, r)
  | _ => (false, s)
  end.

Definition parse_exponent (s : string) : option Z :=
  match s with
  | "" => Some 0%Z
  | String c r =>
      if ((c =? "e") || (c =? "E"))%char
      then let (neg, r') := split_sign r in
           match span_digits r' with
           | (String d ds, "") =>
               let v := digits_value 0 (String d ds) in
               Some (if neg then (- v)%Z else v)
           | _ => None
           end
      else None
  end.

Definition parse_decimal (neg : bool) (s : string) : option pyfloat :=
  let (ip, r1) := span_digits s in
  let (fp, r2) := match r1 with
                  | String "." r => span_digits r
                  | _ => ("", r1)
                  end in
  match ip ++ fp with
  | "" => None
  | ds =>
      match parse_exponent r2 with
      | Some e =>
          let m := digits_value 0 ds in
          Some (Finite (scale10 (if neg then (- m)%Z else m)
                                (e - Z.of_nat (length fp))))
      | None => None
      end
  end.

(** [float(s)] for a [str] argument; [None] stands for the ValueError. *)
Definition float (s : string) : option pyfloat :=
  match drop_underscores "000"%char s with
  | None => None
  | Some s1 =>
      let (neg, body) := split_sign (strip s1) in
      let word := lower body in
      if (word =? "inf") || (word =? "infinity") then Some (Inf neg)
      else if word =? "nan" then Some NaN
      else parse_decimal neg body
  end.

(** *** [re.split(r"\s*:\s*", s, 1)]

    The text before and after the first colon, if there is one. *)
Fixpoint find_colon (s : string) : option (string * string) :=
  match s with
  | "" => None
  | String c s' =>
      if (c =? ":")%char then Some ("", s')
      else match find_colon s' with
           | Some (before, after) => Some (String c before, after)
           | None => None
           end
  end.

(** The leftmost match of [\s*:\s*] is the first colon with all the
    whitespace around it; with [maxsplit=1] the string is split there once.
    Without a colon the list has the string as its only item. *)
Definition re_split_colon_1 (s : string) : list string :=
  match find_colon s with
  | Some (before, after) => [rstrip before; lstrip after]
  | None => [s]
  end.

(** [d[k] = v]: a key already present keeps its place. *)
Fixpoint dict_set {V : Type} (k : string) (v : V) (d : list (string * V))
  : list (string * V) :=
  match d with
  | [] => [(k, v)]
  | (k', v') :: d' =>
      if k =? k' then (k, v) :: d' else (k', v') :: dict_set k v d'
  end.

(** [dict(items)] for a list of lists of strings, continued from item
    number [i] and the dictionary [d].  An item that is not a pair stops the
    construction: [inr (i, n)] stands for the ValueError that names its
    index [i] and its length [n]. *)
Fixpoint dict_of_seq_from (i : nat) (d : list (string * string))
  (items : list (list string)) : list (string * string) + nat * nat :=
  match items with
  | [] => inl d
  | [k; v] :: rest => dict_of_seq_from (S i) (dict_set k v d) rest
  | item :: _ => inr (i, List.length item)
  end.

Definition dict_of_seq (items : list (list string))
  : list (string * string) + nat * nat :=
  dict_of_seq_from 0 [] items.

(** [str(n)] for a natural number *)
Definition str_of_nat (n : nat) : string :=
  NilEmpty.string_of_uint (Nat.to_uint n).

End Py.

(** ** Exceptions, results and the state-passing monad *)

(** The exceptions the module can raise.  [UnexpectedStatusLine fields]
    stands for [Exception("Unexpected status line format: " + str(fields))],
    [FloatValueError arg] for the ValueError that [float(arg)] raises, and
    [SerialException] covers pyserial's subclasses of it. *)
Inductive exn : Type :=
  | SerialException
  | Exception (msg : string)
  | UnexpectedStatusLine (fields : list string)
  | ValueError (msg : string)
  | FloatValueError (arg : string)
  | KeyError (key : string)
  | IndexError
  | AttributeError (name : string)
  | UnicodeEncodeError
  | UnicodeDecodeError.

Inductive result (A : Type) : Type :=
  | Ok (a : A)
  | Raise (e : exn).

Arguments Ok {A} a.
Arguments Raise {A} e.

(** A method run on state [S]: it returns or raises, and the state it leaves
    behind is kept either way. *)
Definition M (S A : Type) : Type := S -> result A * S.

Definition ret {S A} (a : A) : M S A := fun s => (Ok a, s).

Definition raise {S A} (e : exn) : M S A := fun s => (Raise e, s).

Definition bind {S A B} (m : M S A) (k : A -> M S B) : M S B :=
  fun s =>
    match m s with
    | (Ok a, s') => k a s'
    | (Raise e, s') => (Raise e, s')
    end.

Notation "x <- m ;; k" := (bind m (fun x => k))
  (at level 61, m at next level, right associativity).
Notation "m ;;; k" := (bind m (fun _ => k))
  (at level 61, right associativity).

(** [None] raises [e]. *)
Definition expect {S A} (o : option A) (e : exn) : M S A :=
  match o with
  | Some a => ret a
  | None => raise e
  end.

(** Run a computation on the rest of the state, leaving [self] alone. *)
Definition on_rest {Self S A} (m : M S A) : M (Self * S) A :=
  fun st =>
    let (r, s') := m (snd st) in (r, (fst st, s')).

(** [try: body finally: cleanup] *)
Definition try_finally {S A} (body : M S A) (cleanup : M S unit) : M S A :=
  fun s =>
    let (r, s1) := body s in
    match cleanup s1 with
    | (Ok _, s2) => (r, s2)
    | (Raise e, s2) => (Raise e, s2)
    end.

(** [try: body except serial.serialutil.SerialException: pass] *)
Definition except_serial_pass {S} (body : M S unit) : M S unit :=
  fun s =>
    match body s with
    | (Raise SerialException, s') => (Ok tt, s')
    | other => other
    end.

(** ** The serial port (pyserial) and the clock *)

Module serial.

(** What the line delivers to one [read(1)]: a byte, nothing before the
    timeout, or an I/O failure. *)
Inductive rx_event : Type :=
  | Rx (b : ascii)
  | RxTimeout
  | RxFault.

(** The device file: whether it can be opened, what it will deliver and what
    was written to it, oldest write first. *)
Record Line : Type := mkLine {
  openable : bool;
  rx : list rx_event;
  tx : list string
}.

(** A [serial.Serial] object *)
Record Serial : Type := mkSerial {
  portstr : string;
  baudrate : Z;
  timeout : Z;
  is_open : bool
}.

Definition set_is_open (b : bool) (s : Serial) : Serial :=
  mkSerial (portstr s) (baudrate s) (timeout s) b.

Definition set_rx (r : list rx_event) (l : Line) : Line :=
  mkLine (openable l) r (tx l).

Definition push_tx (data : string) (l : Line) : Line :=
  mkLine (openable l) (rx l) (tx l ++ [data]).

(** [serial.Serial(port, baud, timeout=t)]: the constructor opens the port. *)
Definition Serial_new (port : string) (baud t : Z) : M Line Serial :=
  fun l =>
    if openable l then (Ok (mkSerial port baud t true), l)
    else (Raise SerialException, l).

(** [Serial.open()] *)
Definition open : M (Serial * Line) unit :=
  fun st =>
    let (s, l) := st in
    if is_open s then (Raise SerialException, st)
    else if openable l then (Ok tt, (set_is_open true s, l))
    else (Raise SerialException, st).

(** [Serial.close()] *)
Definition close : M (Serial * Line) unit :=
  fun st => (Ok tt, (set_is_open false (fst st), snd st)).

(** [Serial.write(data)] *)
Definition write (data : string) : M (Serial * Line) unit :=
  fun st =>
    let (s, l) := st in
    if is_open s then (Ok tt, (s, push_tx data l))
    else (Raise SerialException, st).

(** The loop of [Serial.read_until(expected)], for a non-empty [expected]:
    bytes are read one at a time until the text read ends with [expected] or
    a read times out; what was read so far is returned. *)
Fixpoint read_loop (expected line : string) (events : list rx_event)
  : result string * list rx_event :=
  match events with
  | [] => (Ok line, [])
  | Rx b :: rest =>
      let line' := line ++ String b "" in
      if Py.endswith line' expected then (Ok line', rest)
      else read_loop expected line' rest
  | RxTimeout :: rest => (Ok line, rest)
  | RxFault :: rest => (Raise SerialException, rest)
  end.

(** [Serial.read_until(expected)] *)
Definition read_until (expected : string) : M (Serial * Line) string :=
  fun st =>
    let (s, l) := st in
    if is_open s
    then let (r, rest) := read_loop expected "" (rx l) in
         (r, (s, set_rx rest l))
    else (Raise SerialException, st).

End serial.

(** The world outside the objects: the serial line and the clock.
    [time.time()] returns [now]; the readings after it are [later], and the
    clock holds its last reading once they are used up.  Timestamps are exact
    rationals, in seconds. *)
Record World : Type := mkWorld {
  line : serial.Line;
  now : Q;
  later : list Q
}.

Definition set_line (l : serial.Line) (w : World) : World :=
  mkWorld l (now w) (later w).

Definition tick (w : World) : World :=
  match later w with
  | [] => w
  | t :: rest => mkWorld (line w) t rest
  end.

(** [time.time()] *)
Definition time_time : M World Q :=
  fun w => (Ok (now w), tick w).

(** ** Module-level tables *)

Definition _SWING_CHAR_TO_NAME : list (string * option string) :=
  [ ("-", None);
    ("0", None);
    ("a", Some "auto");
    ("h", Some "horizontal");
    ("3", Some "30");
    ("4", Some "45");
    ("6", Some "60");
    ("v", Some "vertical") ].

Definition _SWING_NAME_TO_CHAR : list (string * string) :=
  [ ("auto", "a");
    ("horizontal", "h");
    ("30", "3");
    ("45", "4");
    ("60", "6");
    ("vertical", "v") ].

Definition _MODES : list string := ["auto"; "cool"; "dry"; "fan"; "heat"].

(** ** class CoolMaster *)

Module CoolMaster.

Record t : Type := mk {
  _port : string;
  _baud : Z;
  _read_timeout : Z;
  _auto_update : bool;
  _ser : option serial.Serial
}.

Definition set_ser (o : option serial.Serial) (self : t) : t :=
  mk (_port self) (_baud self) (_read_timeout self) (_auto_update self) o.

(** A bridge method runs on the bridge object and the world. *)
Definition State : Type := t * World.

Definition __init__ (port : string) (baud read_timeout : Z)
  (auto_update : bool) : t :=
  mk port baud read_timeout auto_update None.

(** Run a method of [self._ser]. *)
Definition ser {A} (m : M (serial.Serial * serial.Line) A) : M State A :=
  fun st =>
    let (self, w) := st in
    match _ser self with
    | None => (Raise (AttributeError "NoneType"), st)
    | Some s =>
        match m (s, line w) with
        | (r, (s', l')) => (r, (set_ser (Some s') self, set_line l' w))
        end
    end.

Definition _open : M State unit :=
  (fun st : State =>
     let (self, w) := st in
     match _ser self with
     | None =>
         match serial.Serial_new (_port self) (_baud self)
                 (_read_timeout self) (line w) with
         | (Ok s, l') => (Ok tt, (set_ser (Some s) self, set_line l' w))
         | (Raise e, l') => (Raise e, (self, set_line l' w))
         end
     | Some _ => (Ok tt, st)
     end) ;;;
  except_serial_pass (ser serial.open).

(** [str.encode("ascii")] *)
Definition encode_ascii {S} (s : string) : M S string :=
  if Py.isascii s then ret s else raise UnicodeEncodeError.

(** [bytes.decode("ascii")] *)
Definition decode_ascii {S} (b : string) : M S string :=
  if Py.isascii b then ret b else raise UnicodeDecodeError.

(** The two [endswith] tests at the end of [_make_request]. *)
Definition strip_markers (response : string) : string :=
  let response :=
    if Py.endswith response (Py.CRLF ++ ">")
    then Py.slice_to_neg 1 response else response in
  let response :=
    if Py.endswith response ("OK" ++ Py.CRLF)
    then Py.slice_to_neg 4 response else response in
  response.

Definition _make_request (request : string) : M State string :=
  _open ;;;
  try_finally
    (ser (serial.write Py.CRLF) ;;;
     prompt <- ser (serial.read_until ">") ;;
     if negb (prompt =? Py.CRLF ++ ">")
     then raise (Exception "CoolMaster prompt not found")
     else
       let request := request ++ Py.CRLF in
       data <- encode_ascii request ;;
       ser (serial.write data) ;;;
       echo <- encode_ascii request ;;
       _ <- ser (serial.read_until echo) ;;
       response <- ser (serial.read_until (Py.CRLF ++ ">")) ;;
       response <- decode_ascii response ;;
       ret (strip_markers response))
    (ser serial.close).

(** [devices]; [new_device] is the class [CoolMasterDevice], a global name
    the method looks up when it runs. *)
Definition devices {D : Type} (new_device : string -> bool -> D)
  : M State (list D) :=
  response <- _make_request "stat2" ;;
  self <- (fun st : State => (Ok (fst st), st)) ;;
  let status_lines := Py.split Py.CRLF (Py.strip response) in
  ret (map (fun line => new_device (Py.take 3 line) (_auto_update self))
           status_lines).


(** [info] *)
Definition info : M State (list (string * string)) :=
  response <- _make_request "set" ;;
  let lines := Py.split Py.CRLF (Py.strip response) in
  let key_values := map Py.re_split_colon_1 lines in
  match Py.dict_of_seq key_values with
  | inl d => ret d
  | inr (i, n) =>
      raise (ValueError ("dictionary update sequence element #"
                         ++ Py.str_of_nat i ++ " has length "
                         ++ Py.str_of_nat n ++ "; 2 is required"))
  end.

End CoolMaster.

(** ** class CoolMasterDevice *)

Module CoolMasterDevice.

(** The attributes of a device object.  The snapshot attributes do not exist
    until the first refresh assigns them: [None] is an attribute not yet set,
    and reading it raises AttributeError.  [_swing_mode] holds Python's
    [None] as [Some None].  The [_bridge] reference is the bridge object of
    the state the method runs on. *)
Record t : Type := mk {
  _uid : string;
  _last_refresh_time : Q;
  _auto_update : bool;
  _is_on : option bool;
  _unit : option string;
  _thermostat : option Py.pyfloat;
  _temperature : option Py.pyfloat;
  _fan_speed : option string;
  _mode : option string;
  _swing_mode : option (option string)
}.

Definition set_last_refresh_time (v : Q) (d : t) : t :=
  mk (_uid d) v (_auto_update d) (_is_on d) (_unit d) (_thermostat d)
     (_temperature d) (_fan_speed d) (_mode d) (_swing_mode d).
Definition set_is_on (v : bool) (d : t) : t :=
  mk (_uid d) (_last_refresh_time d) (_auto_update d) (Some v) (_unit d)
     (_thermostat d) (_temperature d) (_fan_speed d) (_mode d) (_swing_mode d).
Definition set_unit (v : string) (d : t) : t :=
  mk (_uid d) (_last_refresh_time d) (_auto_update d) (_is_on d) (Some v)
     (_thermostat d) (_temperature d) (_fan_speed d) (_mode d) (_swing_mode d).
Definition set_thermostat_attr (v : Py.pyfloat) (d : t) : t :=
  mk (_uid d) (_last_refresh_time d) (_auto_update d) (_is_on d) (_unit d)
     (Some v) (_temperature d) (_fan_speed d) (_mode d) (_swing_mode d).
Definition set_temperature (v : Py.pyfloat) (d : t) : t :=
  mk (_uid d) (_last_refresh_time d) (_auto_update d) (_is_on d) (_unit d)
     (_thermostat d) (Some v) (_fan_speed d) (_mode d) (_swing_mode d).
Definition set_fan_speed_attr (v : string) (d : t) : t :=
  mk (_uid d) (_last_refresh_time d) (_auto_update d) (_is_on d) (_unit d)
     (_thermostat d) (_temperature d) (Some v) (_mode d) (_swing_mode d).
Definition set_mode_attr (v : string) (d : t) : t :=
  mk (_uid d) (_last_refresh_time d) (_auto_update d) (_is_on d) (_unit d)
     (_thermostat d) (_temperature d) (_fan_speed d) (Some v) (_swing_mode d).
Definition set_swing_mode (v : option string) (d : t) : t :=
  mk (_uid d) (_last_refresh_time d) (_auto_update d) (_is_on d) (_unit d)
     (_thermostat d) (_temperature d) (_fan_speed d) (_mode d) (Some v).

(** A device method runs on the device object, its bridge and the world. *)
Definition State : Type := t * CoolMaster.State.

Definition self : M State t := fun st => (Ok (fst st), st).

(** [self.<attr> = v] *)
Definition assign (f : t -> t) : M State unit :=
  fun st => (Ok tt, (f (fst st), snd st)).

(** [self._bridge._make_request(request)] *)
Definition bridge_request (request : string) : M State string :=
  on_rest (CoolMaster._make_request request).

Definition __init__ (uid : string) (auto_update : bool) : t :=
  mk uid 0 auto_update None None None None None None None.

(** [fields[i]] *)
Definition item (fields : list string) (i : nat) : M State string :=
  expect (nth_error fields i) IndexError.

(** Lines 143-148: the six assignments decoded from the status fields. *)
Definition assign_status_fields (fields : list string) : M State unit :=
  f1 <- item fields 1 ;;
  assign (set_is_on (f1 =? "ON")) ;;;
  f2 <- item fields 2 ;;
  c <- expect (Py.last_char f2) IndexError ;;
  assign (set_unit (if (c =? "F")%char then "imperial" else "celsius")) ;;;
  f2 <- item fields 2 ;;
  let arg := Py.slice_to_neg 1 f2 in
  x <- expect (Py.float arg) (FloatValueError arg) ;;
  assign (set_thermostat_attr x) ;;;
  f3 <- item fields 3 ;;
  let arg := Py.replace "," "." (Py.slice_to_neg 1 f3) in
  y <- expect (Py.float arg) (FloatValueError arg) ;;
  assign (set_temperature y) ;;;
  f4 <- item fields 4 ;;
  assign (set_fan_speed_attr (Py.lower f4)) ;;;
  f5 <- item fields 5 ;;
  assign (set_mode_attr (Py.lower f5)).

(** Lines 151-153: the swing mode decoded from the answer to the query. *)
Definition assign_swing_mode (swing_line : string) : M State unit :=
  assign (set_swing_mode None) ;;;
  if negb (swing_line =? "")
  then
    let key := Py.strip swing_line in
    name <- expect (Py.dict_get _SWING_CHAR_TO_NAME key) (KeyError key) ;;
    assign (set_swing_mode name)
  else ret tt.

Definition _update_status : M State unit :=
  d <- self ;;
  status_line <- bridge_request ("stat2 " ++ _uid d) ;;
  let fields := Py.re_split_ws (Py.strip status_line) in
  if negb (List.length fields =? 8)%nat
  then raise (UnexpectedStatusLine fields)
  else
    assign_status_fields fields ;;;
    d <- self ;;
    swing_line <- bridge_request ("query " ++ _uid d ++ " s") ;;
    assign_swing_mode swing_line ;;;
    t <- on_rest (on_rest time_time) ;;
    assign (set_last_refresh_time t).

Definition _update_if_needed : M State unit :=
  d <- self ;;
  if _auto_update d
  then
    t <- on_rest (on_rest time_time) ;;
    if Qle_bool 1 (t - _last_refresh_time d)
    then _update_status
    else ret tt
  else ret tt.

(** The decorator: the property first runs [_update_if_needed], then the
    decorated getter. *)
Definition autoupdate_property {A} (func : M State A) : M State A :=
  _update_if_needed ;;; func.

Definition _clear_status : M State unit :=
  assign (set_last_refresh_time 0).

Definition _make_request (format_str : string) : M State string :=
  d <- self ;;
  bridge_request (Py.replace "UID" (_uid d) format_str).

(** The argument of the setters is the text that [str.format] makes of it. *)
Definition set_fan_speed (value : string) : M State unit :=
  _make_request ("fspeed UID " ++ value) ;;;
  _clear_status.

Definition set_mode (value : string) : M State unit :=
  if Py.contains _MODES value
  then
    _make_request (value ++ " UID") ;;;
    _clear_status
  else
    raise (ValueError ("Unrecognized mode " ++ value ++ ". Valid values: "
                       ++ Py.join " " _MODES)).

Definition set_thermostat (value : string) : M State unit :=
  _make_request ("temp UID " ++ value) ;;;
  _clear_status.

Definition set_swing (value : string) : M State unit :=
  if Py.dict_contains _SWING_NAME_TO_CHAR value
  then
    c <- expect (Py.dict_get _SWING_NAME_TO_CHAR value) (KeyError value) ;;
    _make_request ("swing UID " ++ c) ;;;
    _clear_status
  else
    raise (ValueError ("Unrecognized swing mode " ++ value
                       ++ ". Valid values: "
                       ++ Py.join " " (Py.dict_keys _SWING_NAME_TO_CHAR))).

Definition turn_on : M State unit :=
  _make_request "on UID" ;;;
  _clear_status.

Definition turn_off : M State unit :=
  _make_request "off UID" ;;;
  _clear_status.

Definition update_status : M State unit :=
  _clear_status ;;;
  _update_status.

(** [self.<attr>] for a snapshot attribute *)
Definition attr {A} (get : t -> option A) (name : string) : M State A :=
  d <- self ;;
  expect (get d) (AttributeError name).

(** The values a status dictionary holds. *)
Inductive value : Type :=
  | VNone
  | VBool (b : bool)
  | VStr (s : string)
  | VFloat (x : Py.pyfloat).

Definition fan_speed : M State string :=
  autoupdate_property (attr _fan_speed "_fan_speed").

Definition is_on : M State bool :=
  autoupdate_property (attr _is_on "_is_on").

Definition mode : M State string :=
  autoupdate_property (attr _mode "_mode").

Definition status : M State (list (string * value)) :=
  autoupdate_property
    (fs <- attr _fan_speed "_fan_speed" ;;
     on <- attr _is_on "_is_on" ;;
     md <- attr _mode "_mode" ;;
     sw <- attr _swing_mode "_swing_mode" ;;
     te <- attr _temperature "_temperature" ;;
     th <- attr _thermostat "_thermostat" ;;
     d <- self ;;
     un <- attr _unit "_unit" ;;
     ret [ ("fan_speed", VStr fs);
           ("is_on", VBool on);
           ("mode", VStr md);
           ("swing", match sw with Some n => VStr n | None => VNone end);
           ("temperature", VFloat te);
           ("thermostat", VFloat th);
           ("uid", VStr (_uid d));
           ("unit", VStr un) ]).

Definition swing : M State (option string) :=
  autoupdate_property (attr _swing_mode "_swing_mode").

Definition temperature : M State Py.pyfloat :=
  autoupdate_property (attr _temperature "_temperature").

Definition thermostat : M State Py.pyfloat :=
  autoupdate_property (attr _thermostat "_thermostat").

Definition uid : M State string :=
  d <- self ;; ret (_uid d).

Definition unit : M State string :=
  autoupdate_property (attr _unit "_unit").

End CoolMasterDevice.

(** [CoolMaster.devices] with the class it constructs. *)
Definition devices : M CoolMaster.State (list CoolMasterDevice.t) :=
  CoolMaster.devices CoolMasterDevice.__init__.

(** ** Fixtures *)

(** A line that delivers the given bytes. *)
Definition rx_bytes (s : string) : list serial.rx_event :=
  map serial.Rx (list_ascii_of_string s).

(** What the bridge sends for one exchange: the prompt, the echo of the
    request and the body closed by the next prompt. *)
Definition answer (request body : string) : string :=
  Py.CRLF ++ ">" ++ request ++ Py.CRLF ++ body ++ Py.CRLF ++ ">".

Definition world_of (events : list serial.rx_event) (t : Q) (ts : list Q)
  : World :=
  mkWorld (serial.mkLine true events []) t ts.

Definition bridge0 : CoolMaster.t :=
  CoolMaster.__init__ "/dev/ttyUSB0" 9600 5 true.

Definition dev0 : CoolMasterDevice.t := CoolMasterDevice.__init__ "101" true.

Definition status_line_example : string :=
  "101 OFF 32C 04,93C Low  Dry  OK 1".

(** The bytes of a full refresh of unit 101: the status line of the source's
    comment, then the swing character [h]. *)
Definition good_rx : list serial.rx_event :=
  rx_bytes (answer "stat2 101" (status_line_example ++ Py.CRLF ++ "OK")
            ++ answer "query 101 s" "h").

(** Unit 101 as that refresh leaves it when the clock reads 1700000000. *)
Definition dev_cached : CoolMasterDevice.t :=
  CoolMasterDevice.mk "101" (1700000000 # 1) true (Some false)
    (Some "celsius") (Some (Py.Finite (32 # 1)))
    (Some (Py.Finite (493 # 100))) (Some "low") (Some "dry")
    (Some (Some "horizontal")).

(** Half a second after that refresh, a silent line. *)
Definition w_fresh : World := world_of [] (3400000001 # 2) [].

(** Two seconds after it, the bridge ready to answer. *)
Definition w_stale : World :=
  world_of good_rx (1700000002 # 1) [1700000003 # 1].

(** A fifth of a second after that refresh, the bridge about to confirm
    [on 101]. *)
Definition w_turn_on : World :=
  world_of (rx_bytes (answer "on 101" "OK")) (8500000001 # 5) [].

(** The bridge answering the status request with a line of two fields. *)
Definition w_short_status : World :=
  world_of (rx_bytes (answer "stat2 101" ("101 OFF" ++ Py.CRLF ++ "OK")))
    (1700000002 # 1) [].



(** The bridge lists unit 101 and then a line of two characters. *)
Definition w_short_line : World :=
  world_of
    (rx_bytes (answer "stat2"
                 (status_line_example ++ Py.CRLF ++ "10" ++ Py.CRLF ++ "OK")))
    (1700000002 # 1) [].

(** The bridge lists units 101 and 102. *)
Definition w_two_units : World :=
  world_of
    (rx_bytes (answer "stat2"
                 (status_line_example ++ Py.CRLF
                  ++ "102 ON 72F 70,5F High  Cool OK 1" ++ Py.CRLF ++ "OK")))
    (1700000002 # 1) [].


(** ** Notions the properties are stated with *)

(** The names the swing setter accepts. *)
Definition swing_names : list string := Py.dict_keys _SWING_NAME_TO_CHAR.

(** A swing name sent through the name-to-character table and back through
    the character-to-name table. *)
Definition swing_round_trip (name : string) : option (option string) :=
  match Py.dict_get _SWING_NAME_TO_CHAR name with
  | Some c => Py.dict_get _SWING_CHAR_TO_NAME c
  | None => None
  end.

(** The cached snapshot of a device: the seven status attributes. *)
Definition snapshot (d : CoolMasterDevice.t) :=
  (CoolMasterDevice._is_on d, CoolMasterDevice._unit d,
   CoolMasterDevice._thermostat d, CoolMasterDevice._temperature d,
   CoolMasterDevice._fan_speed d, CoolMasterDevice._mode d,
   CoolMasterDevice._swing_mode d).

(** The device once the six status attributes have been assigned. *)
Definition with_status (is_on : bool) (unit : string)
  (thermostat temperature : Py.pyfloat) (fan_speed mode : string)
  (d : CoolMasterDevice.t) : CoolMasterDevice.t :=
  CoolMasterDevice.mk (CoolMasterDevice._uid d)
    (CoolMasterDevice._last_refresh_time d) (CoolMasterDevice._auto_update d)
    (Some is_on) (Some unit) (Some thermostat) (Some temperature)
    (Some fan_speed) (Some mode) (CoolMasterDevice._swing_mode d).


(** The exceptions that come out of the transport: the port, the prompt
    check and the ASCII codec.  The ValueError of the setters, the error on
    the field count and the lookup errors are not among them. *)
Definition transport_error (e : exn) : Prop :=
  match e with
  | SerialException | Exception _ | UnicodeEncodeError | UnicodeDecodeError
  | AttributeError _ => True
  | _ => False
  end.

(** [m] raises nothing but exceptions that satisfy [P]. *)
Definition raises_only {S A} (P : exn -> Prop) (m : M S A) : Prop :=
  forall s e s', m s = (Raise e, s') -> P e.

(** [m] leaves the view [f] of the state as it was, whether it returns or
    raises. *)
Definition keeps {S A X} (f : S -> X) (m : M S A) : Prop :=
  forall s r s', m s = (r, s') -> f s' = f s.

(** The auto-update flag of the bridge object. *)
Definition bridge_auto_update (st : CoolMaster.State) : bool :=
  CoolMaster._auto_update (fst st).

(** The mutating commands of a device. *)
Inductive command : Type :=
  | TurnOn
  | TurnOff
  | SetMode (value : string)
  | SetFanSpeed (value : string)
  | SetThermostat (value : string)
  | SetSwing (value : string).

Definition run_command (c : command) : M CoolMasterDevice.State unit :=
  match c with
  | TurnOn => CoolMasterDevice.turn_on
  | TurnOff => CoolMasterDevice.turn_off
  | SetMode v => CoolMasterDevice.set_mode v
  | SetFanSpeed v => CoolMasterDevice.set_fan_speed v
  | SetThermostat v => CoolMasterDevice.set_thermostat v
  | SetSwing v => CoolMasterDevice.set_swing v
  end.

(** What has been written to the serial line so far. *)
Definition tx_of (st : CoolMaster.State) : list string :=
  serial.tx (line (snd st)).

(** The writes of one refresh cycle: each exchange sends the synchronising
    line terminator and then its request line. *)
Definition refresh_writes (uid : string) : list string :=
  [ Py.CRLF; "stat2 " ++ uid ++ Py.CRLF;
    Py.CRLF; "query " ++ uid ++ " s" ++ Py.CRLF ].

(** The serial handle [_open] leaves in [self._ser] when it returns, on a
    line [l]; [None] when the constructor raises. *)
Definition opened (b : CoolMaster.t) (l : serial.Line)
  : option serial.Serial :=
  match CoolMaster._ser b with
  | None =>
      if serial.openable l
      then Some (serial.mkSerial (CoolMaster._port b) (CoolMaster._baud b)
                   (CoolMaster._read_timeout b) true)
      else None
  | Some p =>
      Some (if serial.is_open p then p
            else if serial.openable l then serial.set_is_open true p
            else p)
  end.

(** One exchange as the line sees it, on an open port: what it returns and
    the line it leaves. *)
Definition wire_exchange (request : string) (l : serial.Line)
  : result string * serial.Line :=
  let l1 := serial.push_tx Py.CRLF l in
  match serial.read_loop ">" "" (serial.rx l1) with
  | (Raise e, rx1) => (Raise e, serial.set_rx rx1 l1)
  | (Ok prompt, rx1) =>
      let l2 := serial.set_rx rx1 l1 in
      if negb (prompt =? Py.CRLF ++ ">")
      then (Raise (Exception "CoolMaster prompt not found"), l2)
      else if Py.isascii (request ++ Py.CRLF)
      then
        let l3 := serial.push_tx (request ++ Py.CRLF) l2 in
        match serial.read_loop (request ++ Py.CRLF) "" rx1 with
        | (Raise e, rx2) => (Raise e, serial.set_rx rx2 l3)
        | (Ok _, rx2) =>
            match serial.read_loop (Py.CRLF ++ ">") "" rx2 with
            | (Raise e, rx3) => (Raise e, serial.set_rx rx3 l3)
            | (Ok raw, rx3) =>
                (if Py.isascii raw
                 then Ok (CoolMaster.strip_markers raw)
                 else Raise UnicodeDecodeError,
                 serial.set_rx rx3 l3)
            end
        end
      else (Raise UnicodeEncodeError, l2)
  end.

(** The state a request leaves: the handle closed, the line as given. *)
Definition closed_on (h : serial.Serial) (b : CoolMaster.t)
  (l : serial.Line) (w : World) : CoolMaster.State :=
  (CoolMaster.set_ser (Some (serial.set_is_open false h)) b, set_line l w).

(** The character [c] occurs in [s]. *)
Fixpoint has_char (c : ascii) (s : string) : bool :=
  match s with
  | "" => false
  | String x s' => (x =? c)%char || has_char c s'
  end.

(** The public methods of a device, their results dropped. *)
Inductive method : Type :=
  | Command (c : command)
  | UpdateStatus
  | ReadFanSpeed
  | ReadIsOn
  | ReadMode
  | ReadStatus
  | ReadSwing
  | ReadTemperature
  | ReadThermostat
  | ReadUid
  | ReadUnit.

Definition forget {S A} (m : M S A) : M S unit := bind m (fun _ => ret tt).

Definition run_method (m : method) : M CoolMasterDevice.State unit :=
  match m with
  | Command c => run_command c
  | UpdateStatus => CoolMasterDevice.update_status
  | ReadFanSpeed => forget CoolMasterDevice.fan_speed
  | ReadIsOn => forget CoolMasterDevice.is_on
  | ReadMode => forget CoolMasterDevice.mode
  | ReadStatus => forget CoolMasterDevice.status
  | ReadSwing => forget CoolMasterDevice.swing
  | ReadTemperature => forget CoolMasterDevice.temperature
  | ReadThermostat => forget CoolMasterDevice.thermostat
  | ReadUid => forget CoolMasterDevice.uid
  | ReadUnit => forget CoolMasterDevice.unit
  end.

(** The request line of a command for the unit [uid]; [None] for an
    argument the command rejects. *)
Definition command_line (uid : string) (c : command) : option string :=
  match c with
  | TurnOn => Some ("on " ++ uid)
  | TurnOff => Some ("off " ++ uid)
  | SetMode v =>
      if Py.contains _MODES v then Some (v ++ " " ++ uid) else None
  | SetFanSpeed v => Some ("fspeed " ++ uid ++ " " ++ Py.replace "UID" uid v)
  | SetThermostat v => Some ("temp " ++ uid ++ " " ++ Py.replace "UID" uid v)
  | SetSwing v =>
      match Py.dict_get _SWING_NAME_TO_CHAR v with
      | Some c => Some ("swing " ++ uid ++ " " ++ c)
      | None => None
      end
  end.

(** The clock of a world: its reading and the readings to come. *)
Definition clock_of (w : World) : Q * list Q := (now w, later w).

(** The first, respectively the last, character of [s] is no whitespace. *)
Definition starts_nonspace (s : string) : bool :=
  match s with
  | "" => false
  | String c _ => negb (Py.isspace c)
  end.

Fixpoint ends_nonspace (s : string) : bool :=
  match s with
  | "" => false
  | String c "" => negb (Py.isspace c)
  | String _ s' => ends_nonspace s'
  end.

(** Every character of [s] is whitespace. *)
Fixpoint all_space (s : string) : bool :=
  match s with
  | "" => true
  | String c s' => Py.isspace c && all_space s'
  end.

(** The item [re.split] makes of a key and a value. *)
Definition pair_item (kv : string * string) : list string :=
  [fst kv; snd kv].

(** The bridge answering [set] with two settings. *)
Definition w_settings : World :=
  world_of
    (rx_bytes (answer "set"
                 ("Baud : 9600" ++ Py.CRLF ++ "Models : 2" ++ Py.CRLF
                  ++ "OK")))
    (1700000002 # 1) [].

(** The bridge answering [set] with a second line that has no colon. *)
Definition w_settings_bad : World :=
  world_of
    (rx_bytes (answer "set"
                 ("Baud : 9600" ++ Py.CRLF ++ "Models 2" ++ Py.CRLF ++ "OK")))
    (1700000002 # 1) [].

(** * Properties *)

(** *** Strings *)

Lemma append_assoc (a b c : string) : (a ++ b) ++ c = a ++ b ++ c.
Proof. induction a as [|x a IH]; cbn; [reflexivity | rewrite IH; reflexivity]. Qed.










(** *** Stepping through the monad *)

Lemma bind_Ok_inv {S A B} (m : M S A) (k : A -> M S B) s b s' :
  bind m k s = (Ok b, s') ->
  exists a s1, m s = (Ok a, s1) /\ k a s1 = (Ok b, s').
Proof.
  unfold bind. destruct (m s) as [[a|e] s1]; intros H.
  - exists a, s1. split; [reflexivity | exact H].
  - discriminate.
Qed.

Lemma bind_Raise_inv {S A B} (m : M S A) (k : A -> M S B) s e s' :
  bind m k s = (Raise e, s') ->
  m s = (Raise e, s')
  \/ exists a s1, m s = (Ok a, s1) /\ k a s1 = (Raise e, s').
Proof.
  unfold bind. destruct (m s) as [[a|e0] s1]; intros H.
  - right. exists a, s1. split; [reflexivity | exact H].
  - left. inversion H. reflexivity.
Qed.

(** *** The serial log *)

Lemma ser_write_tx data st u st' :
  CoolMaster.ser (serial.write data) st = (Ok u, st') ->
  tx_of st' = (tx_of st ++ [data])%list.
Proof.
  destruct st as [b w]. unfold CoolMaster.ser, serial.write, tx_of.
  destruct (CoolMaster._ser b) as [p|]; [|discriminate].
  destruct (serial.is_open p); intros H; inversion H; reflexivity.
Qed.

Lemma ser_read_until_tx expected st r st' :
  CoolMaster.ser (serial.read_until expected) st = (r, st') ->
  tx_of st' = tx_of st.
Proof.
  destruct st as [b w]. unfold CoolMaster.ser, serial.read_until, tx_of.
  destruct (CoolMaster._ser b) as [p|]; [|intros H; inversion H; reflexivity].
  destruct (serial.is_open p).
  - destruct (serial.read_loop expected EmptyString (serial.rx (line w)));
      intros H; inversion H; reflexivity.
  - intros H; inversion H; reflexivity.
Qed.

Lemma ser_close_tx st r st' :
  CoolMaster.ser serial.close st = (r, st') -> tx_of st' = tx_of st.
Proof.
  destruct st as [b w]. unfold CoolMaster.ser, serial.close, tx_of.
  destruct (CoolMaster._ser b) as [p|]; intros H; inversion H; reflexivity.
Qed.

Lemma open_tx st r st' :
  CoolMaster._open st = (r, st') -> tx_of st' = tx_of st.
Proof.
  destruct st as [[port baud rt au [p|]] w];
    unfold CoolMaster._open, bind, except_serial_pass, CoolMaster.ser,
      serial.Serial_new, serial.open, tx_of; cbn.
  - destruct (serial.is_open p); cbn.
    + intros H; inversion H; reflexivity.
    + destruct (serial.openable (line w)); intros H; inversion H; reflexivity.
  - destruct (serial.openable (line w)); cbn; intros H; inversion H; reflexivity.
Qed.

Lemma try_finally_Ok_inv {S A} (body : M S A) cleanup s a s' :
  try_finally body cleanup s = (Ok a, s') ->
  exists s1 u, body s = (Ok a, s1) /\ cleanup s1 = (Ok u, s').
Proof.
  unfold try_finally. destruct (body s) as [r s1].
  destruct (cleanup s1) as [[u|e] s2] eqn:E; intros H; inversion H; subst.
  exists s1, u. split; [reflexivity | exact E].
Qed.

Lemma encode_ascii_inv {S} (x : string) (s : S) r s' :
  CoolMaster.encode_ascii x s = (Ok r, s') -> r = x /\ s' = s.
Proof.
  unfold CoolMaster.encode_ascii, ret, raise.
  destruct (Py.isascii x); intros H; inversion H; auto.
Qed.

Lemma decode_ascii_inv {S} (x : string) (s : S) r s' :
  CoolMaster.decode_ascii x s = (Ok r, s') -> r = x /\ s' = s.
Proof.
  unfold CoolMaster.decode_ascii, ret, raise.
  destruct (Py.isascii x); intros H; inversion H; auto.
Qed.

(** A request that returns has written the synchronising line terminator and
    the request line, in this order, and nothing else. *)
Lemma make_request_tx req st r st' :
  CoolMaster._make_request req st = (Ok r, st') ->
  tx_of st' = (tx_of st ++ [Py.CRLF; (req ++ Py.CRLF)%string])%list.
Proof.
  unfold CoolMaster._make_request. intros H.
  apply bind_Ok_inv in H. destruct H as (u0 & s0 & Hopen & H).
  apply try_finally_Ok_inv in H. destruct H as (s9 & u9 & H & Hclose).
  apply bind_Ok_inv in H. destruct H as (u1 & s1 & Hw1 & H).
  apply bind_Ok_inv in H. destruct H as (prompt & s2 & Hr1 & H).
  destruct (negb (prompt =? Py.CRLF ++ ">")); [discriminate|].
  apply bind_Ok_inv in H. destruct H as (data & s3 & He1 & H).
  apply encode_ascii_inv in He1. destruct He1 as [-> ->].
  apply bind_Ok_inv in H. destruct H as (u2 & s4 & Hw2 & H).
  apply bind_Ok_inv in H. destruct H as (echo & s5 & He2 & H).
  apply encode_ascii_inv in He2. destruct He2 as [-> ->].
  apply bind_Ok_inv in H. destruct H as (e & s6 & Hr2 & H).
  apply bind_Ok_inv in H. destruct H as (raw & s7 & Hr3 & H).
  apply bind_Ok_inv in H. destruct H as (txt & s8 & Hd & H).
  apply decode_ascii_inv in Hd. destruct Hd as [-> ->].
  inversion H; subst.
  apply open_tx in Hopen. apply ser_write_tx in Hw1, Hw2.
  apply ser_read_until_tx in Hr1, Hr2, Hr3. apply ser_close_tx in Hclose.
  rewrite Hclose, Hr3, Hr2, Hw2, Hr1, Hw1, Hopen.
  rewrite <- app_assoc. reflexivity.
Qed.

(** *** What a request can raise *)

Lemma raises_only_bind {S A B} P (m : M S A) (k : A -> M S B) :
  raises_only P m -> (forall a, raises_only P (k a)) ->
  raises_only P (bind m k).
Proof.
  intros Hm Hk s e s' H. apply bind_Raise_inv in H.
  destruct H as [H | (a & s1 & _ & H)]; [exact (Hm _ _ _ H) | exact (Hk _ _ _ _ H)].
Qed.

Lemma raises_only_ret {S A} P (a : A) : raises_only P (@ret S A a).
Proof. intros s e s' H. discriminate. Qed.

Lemma raises_only_raise {S A} (P : exn -> Prop) e :
  P e -> raises_only P (@raise S A e).
Proof. intros He s e' s' H. inversion H. subst. exact He. Qed.

Lemma raises_only_try_finally {S A} P (body : M S A) cleanup :
  raises_only P body -> raises_only P cleanup ->
  raises_only P (try_finally body cleanup).
Proof.
  intros Hb Hc s e s'. unfold try_finally.
  destruct (body s) as [r s1] eqn:Eb.
  destruct (cleanup s1) as [[u|e1] s2] eqn:Ec; intros H; inversion H; subst.
  - exact (Hb _ _ _ Eb).
  - exact (Hc _ _ _ Ec).
Qed.

Lemma raises_only_ser {A} (m : M (serial.Serial * serial.Line) A) :
  raises_only transport_error m ->
  raises_only transport_error (CoolMaster.ser m).
Proof.
  intros Hm [b w] e s'. unfold CoolMaster.ser.
  destruct (CoolMaster._ser b) as [p|].
  - destruct (m (p, line w)) as [r [p' l']] eqn:E. intros H. inversion H; subst.
    exact (Hm _ _ _ E).
  - intros H. inversion H. exact I.
Qed.

Lemma raises_only_write data : raises_only transport_error (serial.write data).
Proof.
  intros [p l] e s'. unfold serial.write.
  destruct (serial.is_open p); intros H; inversion H. exact I.
Qed.

Lemma read_loop_raises expected acc events e rest :
  serial.read_loop expected acc events = (Raise e, rest) ->
  e = SerialException.
Proof.
  revert acc. induction events as [|ev events IH]; intros acc; cbn.
  - discriminate.
  - destruct ev.
    + destruct (Py.endswith _ _); [discriminate | apply IH].
    + discriminate.
    + intros H. inversion H. reflexivity.
Qed.

Lemma raises_only_read_until expected :
  raises_only transport_error (serial.read_until expected).
Proof.
  intros [p l] e s'. unfold serial.read_until.
  destruct (serial.is_open p).
  - destruct (serial.read_loop expected EmptyString (serial.rx l))
      as [r rest] eqn:E.
    intros H. inversion H; subst. apply read_loop_raises in E. subst. exact I.
  - intros H. inversion H. exact I.
Qed.

Lemma raises_only_close : raises_only transport_error serial.close.
Proof. intros s e s' H. discriminate. Qed.

Lemma raises_only_open : raises_only transport_error CoolMaster._open.
Proof.
  intros [[port baud rt au [p|]] w] e s';
    unfold CoolMaster._open, bind, except_serial_pass, CoolMaster.ser,
      serial.Serial_new, serial.open; cbn.
  - destruct (serial.is_open p); cbn; [discriminate|].
    destruct (serial.openable (line w)); discriminate.
  - destruct (serial.openable (line w)); cbn.
    + discriminate.
    + intros H. inversion H. exact I.
Qed.

Lemma raises_only_encode {S} x :
  raises_only transport_error (@CoolMaster.encode_ascii S x).
Proof.
  unfold CoolMaster.encode_ascii. destruct (Py.isascii x).
  - apply raises_only_ret.
  - apply raises_only_raise. exact I.
Qed.

Lemma raises_only_decode {S} x :
  raises_only transport_error (@CoolMaster.decode_ascii S x).
Proof.
  unfold CoolMaster.decode_ascii. destruct (Py.isascii x).
  - apply raises_only_ret.
  - apply raises_only_raise. exact I.
Qed.

Lemma make_request_raises req :
  raises_only transport_error (CoolMaster._make_request req).
Proof.
  unfold CoolMaster._make_request.
  apply raises_only_bind; [apply raises_only_open | intros _].
  apply raises_only_try_finally;
    [| apply raises_only_ser, raises_only_close].
  apply raises_only_bind;
    [apply raises_only_ser, raises_only_write | intros _].
  apply raises_only_bind;
    [apply raises_only_ser, raises_only_read_until | intros prompt].
  destruct (negb (prompt =? Py.CRLF ++ ">"));
    [apply raises_only_raise; exact I|].
  apply raises_only_bind; [apply raises_only_encode | intros data].
  apply raises_only_bind;
    [apply raises_only_ser, raises_only_write | intros _].
  apply raises_only_bind; [apply raises_only_encode | intros echo].
  apply raises_only_bind;
    [apply raises_only_ser, raises_only_read_until | intros _].
  apply raises_only_bind;
    [apply raises_only_ser, raises_only_read_until | intros raw].
  apply raises_only_bind; [apply raises_only_decode | intros txt].
  apply raises_only_ret.
Qed.

(** *** Device methods, step by step *)

Arguments CoolMaster._make_request : simpl never.
Arguments Py.float : simpl never.
Arguments Py.strip : simpl never.
Arguments Py.re_split_ws : simpl never.
Arguments Py.replace : simpl never.
Arguments Py.slice_to_neg : simpl never.
Arguments Py.last_char : simpl never.
Arguments Py.lower : simpl never.

Lemma bridge_request_eq req d rest :
  CoolMasterDevice.bridge_request req (d, rest)
  = match CoolMaster._make_request req rest with
    | (r, rest') => (r, (d, rest'))
    end.
Proof. reflexivity. Qed.

(** The device's own [_make_request]: the bridge is asked with every [UID]
    of the format string replaced by the unit identifier. *)
Lemma device_make_request_eq fmt d rest :
  CoolMasterDevice._make_request fmt (d, rest)
  = match CoolMaster._make_request
            (Py.replace "UID" (CoolMasterDevice._uid d) fmt) rest with
    | (r, rest') => (r, (d, rest'))
    end.
Proof. reflexivity. Qed.

(** A command of the shape [self._make_request(fmt); self._clear_status()]. *)
Lemma request_then_clear_eq fmt d rest :
  bind (CoolMasterDevice._make_request fmt)
       (fun _ => CoolMasterDevice._clear_status) (d, rest)
  = match CoolMaster._make_request
            (Py.replace "UID" (CoolMasterDevice._uid d) fmt) rest with
    | (Ok _, rest') =>
        (Ok tt, (CoolMasterDevice.set_last_refresh_time 0 d, rest'))
    | (Raise e, rest') => (Raise e, (d, rest'))
    end.
Proof.
  unfold bind. rewrite device_make_request_eq.
  destruct (CoolMaster._make_request _ rest) as [[r|e] rest']; reflexivity.
Qed.

Lemma replace_uid_fspeed uid value :
  Py.replace "UID" uid ("fspeed UID " ++ value)
  = "fspeed " ++ uid ++ " " ++ Py.replace "UID" uid value.
Proof. unfold Py.replace. cbn. reflexivity. Qed.

Lemma replace_uid_temp uid value :
  Py.replace "UID" uid ("temp UID " ++ value)
  = "temp " ++ uid ++ " " ++ Py.replace "UID" uid value.
Proof. unfold Py.replace. cbn. reflexivity. Qed.

(** *** The staleness test *)

Lemma update_if_needed_stale d b w :
  CoolMasterDevice._auto_update d = true ->
  1 <= now w - CoolMasterDevice._last_refresh_time d ->
  CoolMasterDevice._update_if_needed (d, (b, w))
  = CoolMasterDevice._update_status (d, (b, tick w)).
Proof.
  intros Ha Hs. apply Qle_bool_iff in Hs.
  unfold CoolMasterDevice._update_if_needed, bind, CoolMasterDevice.self,
    on_rest, time_time.
  cbn [fst snd]. rewrite Ha. cbn [fst snd]. rewrite Hs. reflexivity.
Qed.

Lemma update_if_needed_fresh d b w :
  CoolMasterDevice._auto_update d = true ->
  now w - CoolMasterDevice._last_refresh_time d < 1 ->
  CoolMasterDevice._update_if_needed (d, (b, w)) = (Ok tt, (d, (b, tick w))).
Proof.
  intros Ha Hs.
  assert (Hb : Qle_bool 1 (now w - CoolMasterDevice._last_refresh_time d)
               = false).
  { destruct (Qle_bool 1 _) eqn:E; [|reflexivity].
    apply Qle_bool_iff in E. exfalso. exact (Qlt_not_le _ _ Hs E). }
  unfold CoolMasterDevice._update_if_needed, bind, CoolMasterDevice.self,
    on_rest, time_time.
  cbn [fst snd]. rewrite Ha. cbn [fst snd]. rewrite Hb. reflexivity.
Qed.

Lemma tick_line w : line (tick w) = line w.
Proof. unfold tick. destruct (later w); reflexivity. Qed.

(** *** The refresh, step by step *)

Lemma length8_inv (l : list string) :
  List.length l = 8%nat ->
  exists f0 f1 f2 f3 f4 f5 f6 f7, l = [f0; f1; f2; f3; f4; f5; f6; f7].
Proof.
  intros H.
  do 8 (destruct l as [|? l]; [discriminate|]).
  destruct l; [|discriminate].
  repeat eexists.
Qed.

(** The six assignments on eight fields: each is made as soon as its value
    is decoded, and a field that does not decode stops the method with the
    earlier assignments made. *)
Lemma assign_status_fields_eq f0 f1 f2 f3 f4 f5 f6 f7 d rest :
  CoolMasterDevice.assign_status_fields [f0; f1; f2; f3; f4; f5; f6; f7]
    (d, rest)
  = let d1 := CoolMasterDevice.set_is_on (f1 =? "ON") d in
    match Py.last_char f2 with
    | None => (Raise IndexError, (d1, rest))
    | Some c =>
        let d2 :=
          CoolMasterDevice.set_unit
            (if (c =? "F")%char then "imperial" else "celsius") d1 in
        let a2 := Py.slice_to_neg 1 f2 in
        match Py.float a2 with
        | None => (Raise (FloatValueError a2), (d2, rest))
        | Some x =>
            let d3 := CoolMasterDevice.set_thermostat_attr x d2 in
            let a3 := Py.replace "," "." (Py.slice_to_neg 1 f3) in
            match Py.float a3 with
            | None => (Raise (FloatValueError a3), (d3, rest))
            | Some y =>
                (Ok tt,
                 (CoolMasterDevice.set_mode_attr (Py.lower f5)
                    (CoolMasterDevice.set_fan_speed_attr (Py.lower f4)
                       (CoolMasterDevice.set_temperature y d3)),
                  rest))
            end
        end
    end.
Proof.
  unfold CoolMasterDevice.assign_status_fields, bind, CoolMasterDevice.item,
    expect, CoolMasterDevice.assign, ret, raise.
  cbn [nth_error fst snd].
  destruct (Py.last_char f2) as [c|]; [|reflexivity].
  destruct (Py.float (Py.slice_to_neg 1 f2)) as [x|]; [|reflexivity].
  destruct (Py.float (Py.replace "," "." (Py.slice_to_neg 1 f3))) as [y|];
    reflexivity.
Qed.

(** What the status fields leave alone. *)
Lemma assign_status_fields_frame fields d rest r d' rest' :
  List.length fields = 8%nat ->
  CoolMasterDevice.assign_status_fields fields (d, rest) = (r, (d', rest')) ->
  rest' = rest
  /\ CoolMasterDevice._uid d' = CoolMasterDevice._uid d
  /\ CoolMasterDevice._last_refresh_time d'
     = CoolMasterDevice._last_refresh_time d
  /\ CoolMasterDevice._auto_update d' = CoolMasterDevice._auto_update d
  /\ CoolMasterDevice._swing_mode d' = CoolMasterDevice._swing_mode d.
Proof.
  intros Hl. apply length8_inv in Hl.
  destruct Hl as (f0 & f1 & f2 & f3 & f4 & f5 & f6 & f7 & ->).
  rewrite assign_status_fields_eq. cbv zeta.
  destruct (Py.last_char f2) as [c|];
    [|intros H; inversion H; subst; auto].
  destruct (Py.float (Py.slice_to_neg 1 f2)) as [x|];
    [|intros H; inversion H; subst; auto].
  destruct (Py.float (Py.replace "," "." (Py.slice_to_neg 1 f3))) as [y|];
    intros H; inversion H; subst; auto.
Qed.

Lemma assign_swing_mode_eq swing_line d rest :
  CoolMasterDevice.assign_swing_mode swing_line (d, rest)
  = if swing_line =? ""
    then (Ok tt, (CoolMasterDevice.set_swing_mode None d, rest))
    else match Py.dict_get _SWING_CHAR_TO_NAME (Py.strip swing_line) with
         | Some name =>
             (Ok tt, (CoolMasterDevice.set_swing_mode name d, rest))
         | None =>
             (Raise (KeyError (Py.strip swing_line)),
              (CoolMasterDevice.set_swing_mode None d, rest))
         end.
Proof.
  unfold CoolMasterDevice.assign_swing_mode, bind, CoolMasterDevice.assign,
    expect, ret, raise.
  cbn [fst snd].
  destruct (swing_line =? ""); cbn [negb]; [reflexivity|].
  destruct (Py.dict_get _SWING_CHAR_TO_NAME (Py.strip swing_line));
    reflexivity.
Qed.

(** [_update_status] as the sequence of its steps. *)
Lemma update_status_eq d rest :
  CoolMasterDevice._update_status (d, rest)
  = match CoolMaster._make_request ("stat2 " ++ CoolMasterDevice._uid d)
            rest with
    | (Raise e, r1) => (Raise e, (d, r1))
    | (Ok status_line, r1) =>
        let fields := Py.re_split_ws (Py.strip status_line) in
        if negb (List.length fields =? 8)%nat
        then (Raise (UnexpectedStatusLine fields), (d, r1))
        else
          match CoolMasterDevice.assign_status_fields fields (d, r1) with
          | (Raise e, st1) => (Raise e, st1)
          | (Ok _, (d1, r1')) =>
              match CoolMaster._make_request
                      ("query " ++ CoolMasterDevice._uid d1 ++ " s") r1' with
              | (Raise e, r2) => (Raise e, (d1, r2))
              | (Ok swing_line, r2) =>
                  match CoolMasterDevice.assign_swing_mode swing_line
                          (d1, r2) with
                  | (Raise e, st3) => (Raise e, st3)
                  | (Ok _, (d3, (b3, w3))) =>
                      (Ok tt,
                       (CoolMasterDevice.set_last_refresh_time (now w3) d3,
                        (b3, tick w3)))
                  end
              end
          end
    end.
Proof.
  unfold CoolMasterDevice._update_status.
  unfold bind at 1. unfold CoolMasterDevice.self at 1. cbn [fst snd].
  unfold bind at 1. rewrite bridge_request_eq.
  destruct (CoolMaster._make_request _ rest) as [[status_line|e] r1];
    [|reflexivity].
  cbv zeta.
  destruct (negb (List.length (Py.re_split_ws (Py.strip status_line)) =? 8)%nat);
    [reflexivity|].
  unfold bind at 1.
  destruct (CoolMasterDevice.assign_status_fields _ (d, r1))
    as [[u|e] [d1 r1']]; [|reflexivity].
  unfold bind at 1. unfold CoolMasterDevice.self at 1. cbn [fst snd].
  unfold bind at 1. rewrite bridge_request_eq.
  destruct (CoolMaster._make_request _ r1') as [[swing_line|e] r2];
    [|reflexivity].
  unfold bind at 1.
  destruct (CoolMasterDevice.assign_swing_mode swing_line (d1, r2))
    as [[u'|e] [d3 [b3 w3]]]; [|reflexivity].
  reflexivity.
Qed.

(** *** What a request leaves alone *)

Lemma keeps_bind {S A B X} (f : S -> X) (m : M S A) (k : A -> M S B) :
  keeps f m -> (forall a, keeps f (k a)) -> keeps f (bind m k).
Proof.
  intros Hm Hk s r s'. unfold bind.
  destruct (m s) as [[a|e] s1] eqn:E; intros H.
  - rewrite (Hk _ _ _ _ H). exact (Hm _ _ _ E).
  - inversion H; subst. exact (Hm _ _ _ E).
Qed.

Lemma keeps_ret {S A X} (f : S -> X) (a : A) : keeps f (ret a).
Proof. intros s r s' H. inversion H. reflexivity. Qed.

Lemma keeps_raise {S A X} (f : S -> X) e : keeps f (@raise S A e).
Proof. intros s r s' H. inversion H. reflexivity. Qed.

Lemma keeps_try_finally {S A X} (f : S -> X) (body : M S A) cleanup :
  keeps f body -> keeps f cleanup -> keeps f (try_finally body cleanup).
Proof.
  intros Hb Hc s r s'. unfold try_finally.
  destruct (body s) as [r1 s1] eqn:Eb.
  destruct (cleanup s1) as [[u|e] s2] eqn:Ec; intros H; inversion H; subst;
    rewrite (Hc _ _ _ Ec); exact (Hb _ _ _ Eb).
Qed.

Lemma keeps_ser {A} (m : M (serial.Serial * serial.Line) A) :
  keeps bridge_auto_update (CoolMaster.ser m).
Proof.
  intros [b w] r s'. unfold CoolMaster.ser.
  destruct (CoolMaster._ser b) as [p|].
  - destruct (m (p, line w)) as [r1 [p' l']]. intros H. inversion H.
    reflexivity.
  - intros H. inversion H. reflexivity.
Qed.

Lemma keeps_open : keeps bridge_auto_update CoolMaster._open.
Proof.
  intros [[port baud rt au [p|]] w] r s';
    unfold CoolMaster._open, bind, except_serial_pass, CoolMaster.ser,
      serial.Serial_new, serial.open; cbn.
  - destruct (serial.is_open p); cbn.
    + intros H; inversion H; reflexivity.
    + destruct (serial.openable (line w)); intros H; inversion H; reflexivity.
  - destruct (serial.openable (line w)); cbn; intros H; inversion H;
      reflexivity.
Qed.

Lemma make_request_keeps_auto_update req :
  keeps bridge_auto_update (CoolMaster._make_request req).
Proof.
  unfold CoolMaster._make_request.
  apply keeps_bind; [apply keeps_open | intros _].
  apply keeps_try_finally; [| apply keeps_ser].
  apply keeps_bind; [apply keeps_ser | intros _].
  apply keeps_bind; [apply keeps_ser | intros prompt].
  destruct (negb (prompt =? Py.CRLF ++ ">")); [apply keeps_raise|].
  unfold CoolMaster.encode_ascii, CoolMaster.decode_ascii.
  apply keeps_bind;
    [destruct (Py.isascii _); [apply keeps_ret | apply keeps_raise]
    | intros data].
  apply keeps_bind; [apply keeps_ser | intros _].
  apply keeps_bind;
    [destruct (Py.isascii _); [apply keeps_ret | apply keeps_raise]
    | intros echo].
  apply keeps_bind; [apply keeps_ser | intros _].
  apply keeps_bind; [apply keeps_ser | intros raw].
  apply keeps_bind;
    [destruct (Py.isascii _); [apply keeps_ret | apply keeps_raise]
    | intros txt].
  apply keeps_ret.
Qed.

(** *** Membership *)

Lemma contains_In items x : Py.contains items x = true <-> In x items.
Proof.
  unfold Py.contains. rewrite existsb_exists. split.
  - intros (y & Hy & E). apply String.eqb_eq in E. subst. exact Hy.
  - intros H. exists x. split; [exact H | apply String.eqb_refl].
Qed.

Lemma contains_not_In items x : ~ In x items -> Py.contains items x = false.
Proof.
  intros H. destruct (Py.contains items x) eqn:E; [|reflexivity].
  apply contains_In in E. contradiction.
Qed.

(** ** Swing tables (C6) *)

(** C6 as stated does not hold: the named swing modes are not five.  The
    name-to-character table holds six distinct names. *)
Lemma C6_named_modes_are_not_five :
  NoDup swing_names
  /\ List.length swing_names = 6%nat
  /\ List.length swing_names <> 5%nat.
Proof.
  split; [|split].
  - unfold swing_names. cbn.
    repeat (constructor; [cbn; intuition discriminate|]). constructor.
  - reflexivity.
  - cbn. discriminate.
Qed.

(** C6 (amended): the character [h] maps to [horizontal] and [-] to [None];
    an empty answer to the swing query stores [None]; an answer that strips
    to [h] stores [horizontal]; and name -> character -> name is the identity
    on each of the six names of the name-to-character table, that is auto,
    horizontal, 30, 45, 60 and vertical. *)
Theorem C6_swing_tables :
  Py.dict_get _SWING_CHAR_TO_NAME "h" = Some (Some "horizontal")
  /\ Py.dict_get _SWING_CHAR_TO_NAME "-" = Some None
  /\ (forall d rest,
        CoolMasterDevice.assign_swing_mode "" (d, rest)
        = (Ok tt, (CoolMasterDevice.set_swing_mode None d, rest)))
  /\ (forall swing_line d rest,
        Py.strip swing_line = "h" ->
        CoolMasterDevice.assign_swing_mode swing_line (d, rest)
        = (Ok tt, (CoolMasterDevice.set_swing_mode (Some "horizontal") d,
                   rest)))
  /\ swing_names = ["auto"; "horizontal"; "30"; "45"; "60"; "vertical"]
  /\ Forall (fun name => swing_round_trip name = Some (Some name))
        swing_names.
Proof.
  split; [reflexivity|]. split; [reflexivity|].
  split; [intros; reflexivity|]. split.
  - intros swing_line d rest Hs.
    unfold CoolMasterDevice.assign_swing_mode, bind, CoolMasterDevice.assign.
    cbn [fst snd].
    destruct (swing_line =? "") eqn:E.
    + apply String.eqb_eq in E. subst. discriminate.
    + cbn [negb]. rewrite Hs. reflexivity.
  - split; [reflexivity|]. repeat constructor.
Qed.

Lemma C6_swing_tables_witness :
  CoolMasterDevice.assign_swing_mode ("h" ++ Py.CRLF) (dev0, (bridge0, world_of [] 0 []))
  = (Ok tt, (CoolMasterDevice.set_swing_mode (Some "horizontal") dev0,
             (bridge0, world_of [] 0 []))).
Proof.
  destruct C6_swing_tables as (_ & _ & _ & H & _).
  apply H. reflexivity.
Defined.

(** ** Argument validation (C8) *)

(** C8: a value outside [_MODES] makes [set_mode] raise the ValueError whose
    message names the value and lists the five modes, and a value that is no
    key of [_SWING_NAME_TO_CHAR] makes [set_swing] raise the ValueError that
    lists the six swing names; in both cases the state is returned as it
    was: nothing is written to the line and the device object, its
    last-refresh time included, is unchanged. *)
Theorem C8_invalid_argument_rejected (value : string)
  (st : CoolMasterDevice.State) :
  (~ In value _MODES ->
   CoolMasterDevice.set_mode value st
   = (Raise (ValueError ("Unrecognized mode " ++ value
                         ++ ". Valid values: auto cool dry fan heat")), st))
  /\ (~ In value swing_names ->
      CoolMasterDevice.set_swing value st
      = (Raise (ValueError ("Unrecognized swing mode " ++ value
                            ++ ". Valid values: auto horizontal 30 45 60 vertical")),
         st)).
Proof.
  split; intros H.
  - unfold CoolMasterDevice.set_mode.
    rewrite (contains_not_In _ _ H). reflexivity.
  - unfold CoolMasterDevice.set_swing, Py.dict_contains.
    fold swing_names. rewrite (contains_not_In _ _ H). reflexivity.
Qed.

Lemma C8_invalid_argument_rejected_witness :
  let st := (dev0, (bridge0, world_of [] 0 [])) in
  CoolMasterDevice.set_mode "bogus" st
  = (Raise (ValueError "Unrecognized mode bogus. Valid values: auto cool dry fan heat"), st)
  /\ CoolMasterDevice.set_swing "bogus" st
     = (Raise (ValueError "Unrecognized swing mode bogus. Valid values: auto horizontal 30 45 60 vertical"), st).
Proof.
  intros st.
  destruct (C8_invalid_argument_rejected "bogus" st) as [Hm Hs].
  split.
  - apply Hm. cbn. intuition discriminate.
  - apply Hs. cbn. intuition discriminate.
Defined.

(** ** The refresh on the wire *)

Lemma update_status_tx d rest st' :
  CoolMasterDevice._update_status (d, rest) = (Ok tt, st') ->
  tx_of (snd st')
  = (tx_of rest ++ refresh_writes (CoolMasterDevice._uid d))%list.
Proof.
  rewrite update_status_eq.
  destruct (CoolMaster._make_request _ rest) as [[status_line|e] r1] eqn:E1;
    [|discriminate].
  cbv zeta.
  destruct (negb (List.length (Py.re_split_ws (Py.strip status_line)) =? 8)%nat)
    eqn:El; [discriminate|].
  apply negb_false_iff, Nat.eqb_eq in El.
  destruct (CoolMasterDevice.assign_status_fields _ (d, r1))
    as [[u|e] [d1 r1']] eqn:E2; [|discriminate].
  destruct (assign_status_fields_frame _ _ _ _ _ _ El E2) as (-> & Hu & _).
  rewrite Hu.
  destruct (CoolMaster._make_request _ r1) as [[swing_line|e] r2] eqn:E3;
    [|discriminate].
  rewrite assign_swing_mode_eq.
  apply make_request_tx in E1, E3.
  assert (Ht : forall b w, tx_of (b, tick w) = tx_of (b, w)).
  { intros b w. unfold tx_of. cbn [snd]. rewrite tick_line. reflexivity. }
  destruct r2 as [b2 w2].
  destruct (swing_line =? "").
  - intros H. inversion H; subst. cbn [snd]. rewrite Ht, E3, E1.
    rewrite <- app_assoc. unfold refresh_writes.
    rewrite !append_assoc. reflexivity.
  - destruct (Py.dict_get _ _); [|discriminate].
    intros H. inversion H; subst. cbn [snd]. rewrite Ht, E3, E1.
    rewrite <- app_assoc. unfold refresh_writes.
    rewrite !append_assoc. reflexivity.
Qed.

(** ** Staleness (C3) *)

(** C3: with auto-update on, a property read while the clock is less than one
    second past the last refresh makes no exchange: the getter runs on the
    same device object and the same serial line (only the clock has been
    read), so a snapshot getter returns the cached attribute.  A read one
    second or more past the last refresh runs [_update_status] exactly once
    before the getter, and a refresh that returns has written, in this
    order, the status request and the swing request: [stat2 <uid>] and
    [query <uid> s], each behind its synchronising line terminator. *)
Theorem C3_accessor_staleness {A B : Type}
  (func : M CoolMasterDevice.State A)
  (get : CoolMasterDevice.t -> option B) (name : string)
  (d : CoolMasterDevice.t) (b : CoolMaster.t) (w : World) :
  CoolMasterDevice._auto_update d = true ->
  (now w - CoolMasterDevice._last_refresh_time d < 1 ->
   CoolMasterDevice.autoupdate_property func (d, (b, w))
   = func (d, (b, tick w))
   /\ line (tick w) = line w
   /\ CoolMasterDevice.autoupdate_property (CoolMasterDevice.attr get name)
        (d, (b, w))
      = (match get d with
         | Some v => Ok v
         | None => Raise (AttributeError name)
         end, (d, (b, tick w))))
  /\ (1 <= now w - CoolMasterDevice._last_refresh_time d ->
      CoolMasterDevice.autoupdate_property func (d, (b, w))
      = bind CoolMasterDevice._update_status (fun _ => func)
          (d, (b, tick w))
      /\ forall st',
          CoolMasterDevice._update_status (d, (b, tick w)) = (Ok tt, st') ->
          tx_of (snd st')
          = (tx_of (b, w) ++ refresh_writes (CoolMasterDevice._uid d))%list).
Proof.
  intros Ha. split; intros Hs.
  - assert (Hf : forall C (f : M CoolMasterDevice.State C),
               CoolMasterDevice.autoupdate_property f (d, (b, w))
               = f (d, (b, tick w))).
    { intros C f. unfold CoolMasterDevice.autoupdate_property, bind.
      rewrite (update_if_needed_fresh _ _ _ Ha Hs). reflexivity. }
    split; [apply Hf|]. split; [apply tick_line|].
    rewrite Hf. unfold CoolMasterDevice.attr, bind, CoolMasterDevice.self,
      expect, ret, raise. cbn [fst].
    destruct (get d); reflexivity.
  - split.
    + unfold CoolMasterDevice.autoupdate_property, bind.
      rewrite (update_if_needed_stale _ _ _ Ha Hs). reflexivity.
    + intros st' H. apply update_status_tx in H. rewrite H.
      unfold tx_of. cbn [snd]. rewrite tick_line. reflexivity.
Qed.

Lemma C3_accessor_staleness_witness :
  CoolMasterDevice.fan_speed (dev_cached, (bridge0, w_fresh))
  = (Ok "low", (dev_cached, (bridge0, w_fresh)))
  /\ CoolMasterDevice.fan_speed (dev_cached, (bridge0, w_stale))
     = bind CoolMasterDevice._update_status
         (fun _ => CoolMasterDevice.attr CoolMasterDevice._fan_speed
                     "_fan_speed")
         (dev_cached, (bridge0, tick w_stale))
  /\ tx_of (snd (snd (CoolMasterDevice._update_status
                        (dev_cached, (bridge0, tick w_stale)))))
     = refresh_writes "101".
Proof.
  assert (Ha : CoolMasterDevice._auto_update dev_cached = true)
    by reflexivity.
  split; [|split].
  - destruct (C3_accessor_staleness
                (CoolMasterDevice.attr CoolMasterDevice._fan_speed "_fan_speed")
                CoolMasterDevice._fan_speed "_fan_speed"
                dev_cached bridge0 w_fresh Ha) as [Hfresh _].
    destruct Hfresh as (_ & _ & H); [vm_compute; reflexivity|].
    exact H.
  - destruct (C3_accessor_staleness
                (CoolMasterDevice.attr CoolMasterDevice._fan_speed "_fan_speed")
                CoolMasterDevice._fan_speed "_fan_speed"
                dev_cached bridge0 w_stale Ha) as [_ Hstale].
    destruct Hstale as (H & _); [vm_compute; discriminate|].
    exact H.
  - destruct (C3_accessor_staleness
                (CoolMasterDevice.attr CoolMasterDevice._fan_speed "_fan_speed")
                CoolMasterDevice._fan_speed "_fan_speed"
                dev_cached bridge0 w_stale Ha) as [_ Hstale].
    destruct Hstale as (_ & H); [vm_compute; discriminate|].
    apply H. vm_compute. reflexivity.
Defined.

(** ** Invalidation (C7) *)




(** ** Setters without validation (C10) *)



(** ** The field count (C5) *)

(** C5: when the answer to [stat2 <uid>] does not split into exactly eight
    fields, [_update_status] raises the exception that carries the fields
    ("Unexpected status line format") with the device object exactly as it
    was before the call; when it splits into eight fields, that exception
    is not raised, whatever else happens. *)
Theorem C5_field_count (d : CoolMasterDevice.t) (rest r1 : CoolMaster.State)
  (status_line : string) :
  CoolMaster._make_request ("stat2 " ++ CoolMasterDevice._uid d) rest
  = (Ok status_line, r1) ->
  let fields := Py.re_split_ws (Py.strip status_line) in
  (List.length fields <> 8%nat ->
   CoolMasterDevice._update_status (d, rest)
   = (Raise (UnexpectedStatusLine fields), (d, r1)))
  /\ (List.length fields = 8%nat ->
      forall fs st',
        CoolMasterDevice._update_status (d, rest)
        <> (Raise (UnexpectedStatusLine fs), st')).
Proof.
  intros E fields. rewrite update_status_eq, E. cbv zeta. fold fields.
  split; intros Hl.
  - apply Nat.eqb_neq in Hl. rewrite Hl. reflexivity.
  - intros fs st'. rewrite (proj2 (Nat.eqb_eq _ _) Hl). cbn [negb].
    destruct (length8_inv _ Hl) as (f0 & f1 & f2 & f3 & f4 & f5 & f6 & f7 & ->).
    rewrite assign_status_fields_eq. cbv zeta.
    destruct (Py.last_char f2) as [c|]; [|discriminate].
    destruct (Py.float (Py.slice_to_neg 1 f2)) as [x|]; [|discriminate].
    destruct (Py.float (Py.replace "," "." (Py.slice_to_neg 1 f3))) as [y|];
      [|discriminate].
    destruct (CoolMaster._make_request _ r1) as [[swing_line|e] [b2 w2]] eqn:E2.
    + rewrite assign_swing_mode_eq.
      destruct (swing_line =? ""); [discriminate|].
      destruct (Py.dict_get _ _); discriminate.
    + intros H. inversion H; subst.
      exact (make_request_raises _ _ _ _ E2).
Qed.

Lemma C5_field_count_witness :
  let out := CoolMasterDevice._update_status
               (dev_cached, (bridge0, w_short_status)) in
  fst out = Raise (UnexpectedStatusLine ["101"; "OFF"])
  /\ fst (snd out) = dev_cached.
Proof.
  intros out.
  pose (r1 := snd (CoolMaster._make_request "stat2 101"
                     (bridge0, w_short_status))).
  assert (E : CoolMaster._make_request
                ("stat2 " ++ CoolMasterDevice._uid dev_cached)
                (bridge0, w_short_status)
              = (Ok ("101 OFF" ++ Py.CRLF), r1))
    by (vm_compute; reflexivity).
  destruct (C5_field_count dev_cached _ _ _ E) as [H _].
  assert (Hl : List.length (Py.re_split_ws (Py.strip ("101 OFF" ++ Py.CRLF)))
               <> 8%nat) by (vm_compute; discriminate).
  specialize (H Hl). unfold out. split.
  - exact (f_equal fst H).
  - exact (f_equal (fun o => fst (snd o)) H).
Defined.

(** ** The status line of the source's comment (C2) *)

Lemma status_line_example_fields :
  Py.re_split_ws status_line_example
  = ["101"; "OFF"; "32C"; "04,93C"; "Low"; "Dry"; "OK"; "1"].
Proof. reflexivity. Qed.

(** C2: when the bridge answers the status request with
    [101 OFF 32C 04,93C Low  Dry  OK 1] (surrounding whitespace aside), the
    refresh leaves [_is_on = False], [_unit = "celsius"],
    [_thermostat = 32.0], [_temperature = 4.93], [_fan_speed = "low"] and
    [_mode = "dry"], whatever the swing query then does.  In general, eight
    fields whose numbers parse are decoded so: on/off is field 1 compared
    with [ON] (so [on] is off), the unit is imperial exactly when the last
    character of field 2 is [F], the thermostat is field 2 without its last
    character, the temperature is field 3 without its last character and
    with commas turned into points, fan speed and mode are fields 4 and 5 in
    lower case. *)
Theorem C2_status_line_example (d : CoolMasterDevice.t)
  (rest r1 : CoolMaster.State) (status_line : string) :
  CoolMaster._make_request ("stat2 " ++ CoolMasterDevice._uid d) rest
  = (Ok status_line, r1) ->
  Py.strip status_line = status_line_example ->
  let d' := fst (snd (CoolMasterDevice._update_status (d, rest))) in
  (CoolMasterDevice._is_on d' = Some false
   /\ CoolMasterDevice._unit d' = Some "celsius"
   /\ CoolMasterDevice._thermostat d' = Some (Py.Finite (32 # 1))
   /\ CoolMasterDevice._temperature d' = Some (Py.Finite (493 # 100))
   /\ CoolMasterDevice._fan_speed d' = Some "low"
   /\ CoolMasterDevice._mode d' = Some "dry")
  /\ (forall f0 f1 f2 f3 f4 f5 f6 f7 c x y d0 rest0,
        Py.last_char f2 = Some c ->
        Py.float (Py.slice_to_neg 1 f2) = Some x ->
        Py.float (Py.replace "," "." (Py.slice_to_neg 1 f3)) = Some y ->
        CoolMasterDevice.assign_status_fields
          [f0; f1; f2; f3; f4; f5; f6; f7] (d0, rest0)
        = (Ok tt,
           (with_status (f1 =? "ON")
              (if (c =? "F")%char then "imperial" else "celsius")
              x y (Py.lower f4) (Py.lower f5) d0,
            rest0)))
  /\ ("on" =? "ON") = false.
Proof.
  intros E Hs. split; [|split; [|reflexivity]].
  - rewrite update_status_eq, E. cbv zeta.
    rewrite Hs, status_line_example_fields. cbn [List.length Nat.eqb negb].
    rewrite assign_status_fields_eq. cbv zeta.
    change (Py.last_char "32C") with (Some "C"%char).
    change (Py.float (Py.slice_to_neg 1 "32C"))
      with (Some (Py.Finite (32 # 1))).
    change (Py.float (Py.replace "," "." (Py.slice_to_neg 1 "04,93C")))
      with (Some (Py.Finite (493 # 100))).
    change (Py.lower "Low") with "low". change (Py.lower "Dry") with "dry".
    change ("OFF" =? "ON") with false.
    cbv beta iota.
    change (("C" =? "F")%char) with false.
    cbv beta iota.
    destruct (CoolMaster._make_request _ r1) as [[swing_line|e] [b2 w2]].
    + rewrite assign_swing_mode_eq.
      destruct (swing_line =? "");
        [|destruct (Py.dict_get _ _)]; cbn; repeat split; reflexivity.
    + cbn. repeat split; reflexivity.
  - intros f0 f1 f2 f3 f4 f5 f6 f7 c x y d0 rest0 Hc Hx Hy.
    rewrite assign_status_fields_eq. cbv zeta. rewrite Hc, Hx, Hy.
    reflexivity.
Qed.

Lemma C2_status_line_example_witness :
  let d' := fst (snd (CoolMasterDevice._update_status
                        (dev0, (bridge0, w_stale)))) in
  (CoolMasterDevice._is_on d' = Some false
   /\ CoolMasterDevice._unit d' = Some "celsius"
   /\ CoolMasterDevice._thermostat d' = Some (Py.Finite (32 # 1))
   /\ CoolMasterDevice._temperature d' = Some (Py.Finite (493 # 100))
   /\ CoolMasterDevice._fan_speed d' = Some "low"
   /\ CoolMasterDevice._mode d' = Some "dry")
  /\ CoolMasterDevice.assign_status_fields
       ["102"; "ON"; "72F"; "70,5F"; "High"; "Cool"; "OK"; "1"]
       (dev0, (bridge0, w_stale))
     = (Ok tt,
        (with_status true "imperial" (Py.Finite (72 # 1))
           (Py.Finite (141 # 2)) "high" "cool" dev0,
         (bridge0, w_stale))).
Proof.
  pose (r1 := snd (CoolMaster._make_request "stat2 101" (bridge0, w_stale))).
  assert (E : CoolMaster._make_request
                ("stat2 " ++ CoolMasterDevice._uid dev0) (bridge0, w_stale)
              = (Ok (status_line_example ++ Py.CRLF), r1))
    by (vm_compute; reflexivity).
  assert (Hs : Py.strip (status_line_example ++ Py.CRLF)
               = status_line_example) by (vm_compute; reflexivity).
  destruct (C2_status_line_example dev0 _ _ _ E Hs) as (H1 & H2 & _).
  split; [exact H1|].
  exact (H2 "102" "ON" "72F" "70,5F" "High" "Cool" "OK" "1" "F"%char
            (Py.Finite (72 # 1)) (Py.Finite (141 # 2)) dev0
            (bridge0, w_stale) eq_refl eq_refl eq_refl).
Defined.

(** ** Order of the assignments in a refresh (C1) *)




(** ** The markers of a response (C4) *)






(** ** Listing the devices (C9) *)

(** C9 as stated does not hold: when the bridge lists unit 101 and then a
    line of two characters, [devices] raises nothing and returns two
    devices, the second with the two characters as its identifier. *)
Lemma C9_short_line_is_accepted :
  fst (CoolMaster._make_request "stat2" (bridge0, w_short_line))
  = Ok (status_line_example ++ Py.CRLF ++ "10" ++ Py.CRLF)
  /\ fst (devices (bridge0, w_short_line))
     = Ok [CoolMasterDevice.__init__ "101" true;
           CoolMasterDevice.__init__ "10" true].
Proof. split; vm_compute; reflexivity. Qed.

(** C9 (amended): [devices] issues [stat2]; when the request raises, so does
    [devices], and when it returns, [devices] returns one device per line of
    the stripped response split at CR LF, in the order of the lines, each
    with the first three characters of its line as identifier, the bridge's
    auto-update flag and no snapshot.  A line shorter than three characters
    raises nothing: it is the identifier as a whole. *)
Theorem C9_devices_per_line (b : CoolMaster.t) (w : World) :
  devices (b, w)
  = match CoolMaster._make_request "stat2" (b, w) with
    | (Ok response, st') =>
        (Ok (map (fun line =>
                    CoolMasterDevice.__init__ (Py.take 3 line)
                      (CoolMaster._auto_update b))
                 (Py.split Py.CRLF (Py.strip response))),
         st')
    | (Raise e, st') => (Raise e, st')
    end
  /\ (forall line,
        (String.length line < 3)%nat -> Py.take 3 line = line).
Proof.
  split.
  - unfold devices, CoolMaster.devices, bind, ret.
    destruct (CoolMaster._make_request "stat2" (b, w))
      as [[response|e] st'] eqn:E; [|reflexivity].
    cbn [fst].
    pose proof (make_request_keeps_auto_update _ _ _ _ E) as Hk.
    unfold bridge_auto_update in Hk. cbn [fst] in Hk. rewrite Hk.
    reflexivity.
  - intros line Hl.
    destruct line as [|c0 [|c1 [|c2 line]]]; cbn in *;
      try reflexivity. lia.
Qed.

Lemma C9_devices_per_line_witness :
  Py.take 3 "10" = "10"
  /\ fst (devices (bridge0, w_two_units))
     = Ok [CoolMasterDevice.__init__ "101" true;
           CoolMasterDevice.__init__ "102" true].
Proof.
  destruct (C9_devices_per_line bridge0 w_two_units) as [Hd Ht].
  split.
  - apply Ht. cbn. lia.
  - rewrite Hd. vm_compute. reflexivity.
Defined.

(** * Further properties *)

(** ** One exchange on the wire *)

Arguments CoolMaster.strip_markers : simpl never.
Arguments serial.read_loop : simpl never.
Arguments Py.isascii : simpl never.

(** [_make_request] in terms of the line: it fails with SerialException
    when the port does not come open, and otherwise is the exchange on the
    wire followed by the closing of the port. *)
Lemma make_request_eq req b w :
  CoolMaster._make_request req (b, w)
  = match opened b (line w) with
    | None => (Raise SerialException, (b, set_line (line w) w))
    | Some h =>
        if serial.is_open h
        then let (r, l') := wire_exchange req (line w) in
             (r, closed_on h b l' w)
        else (Raise SerialException, closed_on h b (line w) w)
    end.
Proof.
  destruct b as [port baud rt au o]. destruct w as [[can rx tx] t ts].
  unfold CoolMaster._make_request, CoolMaster._open, opened, wire_exchange,
    closed_on, bind, try_finally, except_serial_pass, CoolMaster.ser,
    serial.Serial_new, serial.open, serial.close, serial.write,
    serial.read_until, CoolMaster.encode_ascii, CoolMaster.decode_ascii,
    raise, ret.
  cbn.
  destruct o as [[ps bd tm op]|]; cbn.
  - destruct op; cbn.
    + destruct (serial.read_loop ">" "" rx) as [[prompt|e] rx1]; cbn;
        [|reflexivity].
      destruct (String.eqb prompt _); cbn; [|reflexivity].
      destruct (Py.isascii (req ++ Py.CRLF)); cbn; [|reflexivity].
      destruct (serial.read_loop (req ++ Py.CRLF) "" rx1) as [[echo|e] rx2];
        cbn; [|reflexivity].
      destruct (serial.read_loop _ "" rx2) as [[raw|e] rx3];
        cbn; [|reflexivity].
      destruct (Py.isascii raw); reflexivity.
    + destruct can; cbn; [|reflexivity].
      destruct (serial.read_loop ">" "" rx) as [[prompt|e] rx1]; cbn;
        [|reflexivity].
      destruct (String.eqb prompt _); cbn; [|reflexivity].
      destruct (Py.isascii (req ++ Py.CRLF)); cbn; [|reflexivity].
      destruct (serial.read_loop (req ++ Py.CRLF) "" rx1) as [[echo|e] rx2];
        cbn; [|reflexivity].
      destruct (serial.read_loop _ "" rx2) as [[raw|e] rx3];
        cbn; [|reflexivity].
      destruct (Py.isascii raw); reflexivity.
  - destruct can; cbn; [|reflexivity].
    destruct (serial.read_loop ">" "" rx) as [[prompt|e] rx1]; cbn;
      [|reflexivity].
    destruct (String.eqb prompt _); cbn; [|reflexivity].
    destruct (Py.isascii (req ++ Py.CRLF)); cbn; [|reflexivity].
    destruct (serial.read_loop (req ++ Py.CRLF) "" rx1) as [[echo|e] rx2];
      cbn; [|reflexivity].
    destruct (serial.read_loop _ "" rx2) as [[raw|e] rx3];
      cbn; [|reflexivity].
    destruct (Py.isascii raw); reflexivity.
Qed.



(** What the exchange on the wire writes and raises, case by case. *)
Lemma wire_exchange_cases req l r l' :
  wire_exchange req l = (r, l') ->
  serial.openable l' = serial.openable l
  /\ ((serial.tx l' = (serial.tx l ++ [Py.CRLF])%list
       /\ (r = Raise SerialException
           \/ r = Raise (Exception "CoolMaster prompt not found")
           \/ (r = Raise UnicodeEncodeError /\ Py.isascii (req ++ Py.CRLF) = false)))
      \/ (serial.tx l' = (serial.tx l ++ [Py.CRLF; (req ++ Py.CRLF)%string])%list
          /\ Py.isascii (req ++ Py.CRLF) = true
          /\ (r = Raise SerialException
              \/ r = Raise UnicodeDecodeError
              \/ exists raw, r = Ok (CoolMaster.strip_markers raw)
                             /\ Py.isascii raw = true))).
Proof.
  unfold wire_exchange. destruct l as [can rx tx]. cbn.
  destruct (serial.read_loop _ "" rx) as [[prompt|e] rx1] eqn:E1.
  - destruct (String.eqb prompt _); cbn.
    + destruct (Py.isascii (req ++ Py.CRLF)) eqn:Ea.
      * destruct (serial.read_loop _ "" rx1) as [[echo|e] rx2] eqn:E2.
        -- destruct (serial.read_loop _ "" rx2) as [[raw|e] rx3] eqn:E3.
           ++ intros H. inversion H; subst. cbn. split; [reflexivity|].
              right. rewrite <- app_assoc. split; [reflexivity|].
              split; [reflexivity|].
              destruct (Py.isascii raw) eqn:Er; [|auto].
              right. right. exists raw. auto.
           ++ intros H. inversion H; subst. cbn. split; [reflexivity|].
              right. rewrite <- app_assoc. split; [reflexivity|].
              split; [reflexivity|].
              left. apply read_loop_raises in E3. subst. reflexivity.
        -- intros H. inversion H; subst. cbn. split; [reflexivity|].
           right. rewrite <- app_assoc. split; [reflexivity|].
           split; [reflexivity|].
           left. apply read_loop_raises in E2. subst. reflexivity.
      * intros H. inversion H; subst. cbn. split; [reflexivity|].
        left. split; [reflexivity|]. right. right. auto.
    + intros H. inversion H; subst. cbn. split; [reflexivity|].
      left. split; [reflexivity|]. right. left. reflexivity.
  - intros H. inversion H; subst. cbn. split; [reflexivity|].
    left. split; [reflexivity|].
    left. apply read_loop_raises in E1. subst. reflexivity.
Qed.


Lemma isascii_take n s : Py.isascii s = true -> Py.isascii (Py.take n s) = true.
Proof.
  revert s. induction n as [|n IH]; intros [|c s]; try reflexivity.
  change (Py.isascii (String c s))
    with ((N_of_ascii c <? 128)%N && Py.isascii s).
  change (Py.isascii (Py.take (S n) (String c s)))
    with ((N_of_ascii c <? 128)%N && Py.isascii (Py.take n s)).
  intros H. apply andb_prop in H. destruct H as [Hc Hs].
  rewrite Hc, (IH _ Hs). reflexivity.
Qed.

Lemma isascii_strip_markers raw :
  Py.isascii raw = true -> Py.isascii (CoolMaster.strip_markers raw) = true.
Proof.
  intros H. unfold CoolMaster.strip_markers, Py.slice_to_neg.
  destruct (Py.endswith raw _).
  - destruct (Py.endswith _ _); repeat apply isascii_take; exact H.
  - destruct (Py.endswith _ _); repeat apply isascii_take; exact H.
Qed.










(** X6: the body a request returns is ASCII. *)
Theorem response_body_is_ascii (req : string) (st st' : CoolMaster.State)
  (body : string) :
  CoolMaster._make_request req st = (Ok body, st') ->
  Py.isascii body = true.
Proof.
  destruct st as [b w]. rewrite make_request_eq. unfold closed_on.
  destruct (opened b (line w)) as [h|]; [|discriminate].
  destruct (serial.is_open h); [|discriminate].
  destruct (wire_exchange req (line w)) as [r0 l'] eqn:E.
  intros H. inversion H; subst.
  destruct (wire_exchange_cases _ _ _ _ E)
    as (_ & [(_ & Hr) | (_ & _ & Hr)]).
  - destruct Hr as [Hr | [Hr | [Hr _]]]; discriminate.
  - destruct Hr as [Hr | [Hr | (raw & Hr & Hraw)]]; try discriminate.
    inversion Hr. apply isascii_strip_markers. exact Hraw.
Qed.

Lemma response_body_is_ascii_witness :
  Py.isascii (status_line_example ++ Py.CRLF) = true.
Proof.
  apply (response_body_is_ascii "stat2 101" (bridge0, w_stale)
           (snd (CoolMaster._make_request "stat2 101" (bridge0, w_stale)))).
  vm_compute. reflexivity.
Defined.

(** ** Reading from the line *)






Lemma length_take n s : (String.length (Py.take n s) <= n)%nat.
Proof.
  revert s. induction n as [|n IH]; intros [|c s]; cbn; try lia.
  specialize (IH s). lia.
Qed.



Lemma has_char_append c a b :
  has_char c (a ++ b) = has_char c a || has_char c b.
Proof.
  induction a as [|x a IH]; [reflexivity|].
  cbn. rewrite IH. apply orb_assoc.
Qed.










(** ** Timeouts *)




(** ** The device object across its methods *)

Lemma make_request_clock req b w r st' :
  CoolMaster._make_request req (b, w) = (r, st') ->
  now (snd st') = now w /\ later (snd st') = later w.
Proof.
  rewrite make_request_eq. unfold closed_on.
  destruct (opened b (line w)) as [h|].
  - destruct (serial.is_open h).
    + destruct (wire_exchange req (line w)).
      intros H. inversion H. split; reflexivity.
    + intros H. inversion H. split; reflexivity.
  - intros H. inversion H. split; reflexivity.
Qed.

Lemma tick_clock w w' :
  now w' = now w -> later w' = later w ->
  now (tick w') = now (tick w) /\ later (tick w') = later (tick w).
Proof.
  unfold tick. intros Hn Hl. rewrite Hl.
  destruct (later w) eqn:E; cbn; [|auto].
  rewrite E. split; congruence.
Qed.

(** What a refresh leaves alone, and what it has set when it returns. *)
Lemma update_status_result d b w r st' :
  CoolMasterDevice._update_status (d, (b, w)) = (r, st') ->
  CoolMasterDevice._uid (fst st') = CoolMasterDevice._uid d
  /\ CoolMasterDevice._auto_update (fst st')
     = CoolMasterDevice._auto_update d
  /\ match r with
     | Ok _ =>
         CoolMasterDevice._last_refresh_time (fst st') = now w
         /\ clock_of (snd (snd st')) = clock_of (tick w)
         /\ exists on un th te fs md sw,
             snapshot (fst st')
             = (Some on, Some un, Some th, Some te, Some fs, Some md, Some sw)
     | Raise _ =>
         CoolMasterDevice._last_refresh_time (fst st')
         = CoolMasterDevice._last_refresh_time d
         /\ clock_of (snd (snd st')) = clock_of w
     end.
Proof.
  rewrite update_status_eq. unfold clock_of.
  destruct (CoolMaster._make_request _ (b, w)) as [[status_line|e1] [b1 w1]]
    eqn:E1;
    destruct (make_request_clock _ _ _ _ _ E1) as [Hn1 Hl1]; cbn [snd] in *.
  2:{ intros H. inversion H; subst. cbn. rewrite Hn1, Hl1. auto. }
  cbv zeta.
  destruct (negb (List.length (Py.re_split_ws (Py.strip status_line)) =? 8)%nat)
    eqn:El.
  { intros H. inversion H; subst. cbn. rewrite Hn1, Hl1. auto. }
  apply negb_false_iff, Nat.eqb_eq in El.
  destruct (length8_inv _ El) as (f0 & f1 & f2 & f3 & f4 & f5 & f6 & f7 & ->).
  rewrite assign_status_fields_eq. cbv zeta.
  destruct (Py.last_char f2) as [c|].
  2:{ intros H. inversion H; subst. cbn. rewrite Hn1, Hl1. auto. }
  destruct (Py.float (Py.slice_to_neg 1 f2)) as [x|].
  2:{ intros H. inversion H; subst. cbn. rewrite Hn1, Hl1. auto. }
  destruct (Py.float (Py.replace "," "." (Py.slice_to_neg 1 f3))) as [y|].
  2:{ intros H. inversion H; subst. cbn. rewrite Hn1, Hl1. auto. }
  destruct (CoolMaster._make_request _ (b1, w1)) as [[swing_line|e2] [b2 w2]]
    eqn:E2;
    destruct (make_request_clock _ _ _ _ _ E2) as [Hn2 Hl2]; cbn [snd] in *.
  2:{ intros H. inversion H; subst. cbn. rewrite Hn2, Hl2, Hn1, Hl1. auto. }
  rewrite assign_swing_mode_eq.
  assert (Hn : now w2 = now w) by congruence.
  assert (Hl : later w2 = later w) by congruence.
  destruct (tick_clock w w2 Hn Hl) as [Htn Htl].
  destruct (swing_line =? "").
  - intros H. inversion H; subst. cbn. rewrite Hn, Htn, Htl.
    repeat split; try reflexivity. repeat eexists.
  - destruct (Py.dict_get _ _).
    + intros H. inversion H; subst. cbn. rewrite Hn, Htn, Htl.
      repeat split; try reflexivity. repeat eexists.
    + intros H. inversion H; subst. cbn. rewrite Hn, Hl. auto.
Qed.

Lemma update_if_needed_off d rest :
  CoolMasterDevice._auto_update d = false ->
  CoolMasterDevice._update_if_needed (d, rest) = (Ok tt, (d, rest)).
Proof.
  intros Ha.
  unfold CoolMasterDevice._update_if_needed, bind, CoolMasterDevice.self.
  cbn [fst]. rewrite Ha. reflexivity.
Qed.

Lemma attr_eq {B} (get : CoolMasterDevice.t -> option B) name d rest :
  CoolMasterDevice.attr get name (d, rest)
  = (match get d with
     | Some v => Ok v
     | None => Raise (AttributeError name)
     end, (d, rest)).
Proof.
  unfold CoolMasterDevice.attr, bind, CoolMasterDevice.self, expect, ret,
    raise. cbn [fst]. destruct (get d); reflexivity.
Qed.

(** X9: with auto-update off a property read neither reads the clock nor
    talks to the bridge: the getter runs on the state as it is.  A snapshot
    getter returns the cached attribute, and raises AttributeError when no
    refresh has set it yet, as on a device that was just constructed. *)
Theorem reads_without_auto_update {A B : Type}
  (func : M CoolMasterDevice.State A)
  (get : CoolMasterDevice.t -> option B) (name : string)
  (d : CoolMasterDevice.t) (rest : CoolMaster.State) :
  CoolMasterDevice._auto_update d = false ->
  CoolMasterDevice.autoupdate_property func (d, rest) = func (d, rest)
  /\ CoolMasterDevice.autoupdate_property (CoolMasterDevice.attr get name)
       (d, rest)
     = (match get d with
        | Some v => Ok v
        | None => Raise (AttributeError name)
        end, (d, rest))
  /\ (forall uid,
        CoolMasterDevice.fan_speed (CoolMasterDevice.__init__ uid false, rest)
        = (Raise (AttributeError "_fan_speed"),
           (CoolMasterDevice.__init__ uid false, rest))).
Proof.
  intros Ha.
  assert (Hf : forall C (f : M CoolMasterDevice.State C) d0,
             CoolMasterDevice._auto_update d0 = false ->
             CoolMasterDevice.autoupdate_property f (d0, rest)
             = f (d0, rest)).
  { intros C f d0 H0. unfold CoolMasterDevice.autoupdate_property, bind.
    rewrite (update_if_needed_off _ _ H0). reflexivity. }
  split; [apply Hf; exact Ha|]. split.
  - rewrite (Hf _ _ _ Ha). apply attr_eq.
  - intros uid. unfold CoolMasterDevice.fan_speed.
    rewrite Hf by reflexivity. rewrite attr_eq. reflexivity.
Qed.

Lemma reads_without_auto_update_witness :
  let d := CoolMasterDevice.mk "101" 0 false (Some false) (Some "celsius")
             (Some (Py.Finite (32 # 1))) (Some (Py.Finite (493 # 100)))
             (Some "low") (Some "dry") (Some None) in
  CoolMasterDevice.mode (d, (bridge0, w_stale))
  = (Ok "dry", (d, (bridge0, w_stale))).
Proof.
  intros d.
  destruct (reads_without_auto_update
              (CoolMasterDevice.attr CoolMasterDevice._mode "_mode")
              CoolMasterDevice._mode "_mode" d (bridge0, w_stale) eq_refl)
    as (_ & H & _).
  exact H.
Defined.

Lemma update_if_needed_identity d b w r st' :
  CoolMasterDevice._update_if_needed (d, (b, w)) = (r, st') ->
  CoolMasterDevice._uid (fst st') = CoolMasterDevice._uid d
  /\ CoolMasterDevice._auto_update (fst st')
     = CoolMasterDevice._auto_update d.
Proof.
  unfold CoolMasterDevice._update_if_needed, bind, CoolMasterDevice.self,
    on_rest, time_time.
  cbn [fst snd].
  destruct (CoolMasterDevice._auto_update d) eqn:Ea;
    [|intros H; inversion H; subst; cbn; auto].
  cbn [fst snd].
  destruct (Qle_bool 1 _); [|intros H; inversion H; subst; cbn; auto].
  intros H. destruct (update_status_result _ _ _ _ _ H) as (Hu & Ha' & _).
  rewrite Hu, Ha'. auto.
Qed.

Lemma read_identity {A} (func : M CoolMasterDevice.State A) d b w :
  (forall st, snd (func st) = st) ->
  let st' := snd (forget (CoolMasterDevice.autoupdate_property func)
                    (d, (b, w))) in
  CoolMasterDevice._uid (fst st') = CoolMasterDevice._uid d
  /\ CoolMasterDevice._auto_update (fst st')
     = CoolMasterDevice._auto_update d.
Proof.
  intros Hfunc. unfold forget, CoolMasterDevice.autoupdate_property, bind.
  cbv zeta.
  destruct (CoolMasterDevice._update_if_needed (d, (b, w)))
    as [[u|e] st1] eqn:E;
    destruct (update_if_needed_identity _ _ _ _ _ E) as [Hu Ha].
  - specialize (Hfunc st1). unfold ret.
    destruct (func st1) as [[a|e] st2]; cbn [snd] in *; subst; auto.
  - cbn [snd]. auto.
Qed.

Lemma attr_pure {B} (get : CoolMasterDevice.t -> option B) name st :
  snd (CoolMasterDevice.attr get name st) = st.
Proof. destruct st as [d rest]. rewrite attr_eq. reflexivity. Qed.

Lemma command_result c d rest r st' :
  run_command c (d, rest) = (r, st') ->
  match r with
  | Ok _ => fst st' = CoolMasterDevice.set_last_refresh_time 0 d
  | Raise _ => fst st' = d
  end.
Proof.
  assert (Hstep : forall fmt,
             bind (CoolMasterDevice._make_request fmt)
               (fun _ => CoolMasterDevice._clear_status) (d, rest)
             = (r, st') ->
             match r with
             | Ok _ => fst st' = CoolMasterDevice.set_last_refresh_time 0 d
             | Raise _ => fst st' = d
             end).
  { intros fmt. rewrite request_then_clear_eq.
    destruct (CoolMaster._make_request _ rest) as [[x|e] rest'];
      intros H; inversion H; reflexivity. }
  destruct c; cbn [run_command].
  - apply Hstep.
  - apply Hstep.
  - unfold CoolMasterDevice.set_mode.
    destruct (Py.contains _MODES value); [apply Hstep|].
    intros H. inversion H. reflexivity.
  - apply Hstep.
  - apply Hstep.
  - unfold CoolMasterDevice.set_swing.
    destruct (Py.dict_contains _SWING_NAME_TO_CHAR value);
      [|intros H; inversion H; reflexivity].
    unfold bind at 1. unfold expect.
    destruct (Py.dict_get _SWING_NAME_TO_CHAR value) as [ch|];
      [|intros H; inversion H; reflexivity].
    unfold ret. apply Hstep.
Qed.

(** X10: no public method of a device changes its unit identifier or its
    auto-update flag, whether it returns or raises. *)
Theorem identity_is_kept (m : method) (st : CoolMasterDevice.State) :
  let st' := snd (run_method m st) in
  CoolMasterDevice._uid (fst st') = CoolMasterDevice._uid (fst st)
  /\ CoolMasterDevice._auto_update (fst st')
     = CoolMasterDevice._auto_update (fst st).
Proof.
  destruct st as [d [b w]]. cbn [fst].
  destruct m; cbn [run_method];
    try (apply read_identity; intros st0; apply attr_pure).
  - cbv zeta.
    pose proof (command_result c d (b, w) _ _ (surjective_pairing _)) as E.
    revert E. unfold CoolMasterDevice.State, CoolMaster.State.
    generalize (run_command c (d, (b, w))). intros [r st'] E.
    cbn [fst snd] in *. destruct r; rewrite E; auto.
  - cbv zeta.
    unfold CoolMasterDevice.update_status, CoolMasterDevice._clear_status,
      CoolMasterDevice.assign, bind. cbn [fst snd].
    pose proof (update_status_result _ _ _ _ _
                  (surjective_pairing
                     (CoolMasterDevice._update_status
                        (CoolMasterDevice.set_last_refresh_time 0 d, (b, w)))))
      as (Hu & Ha & _).
    revert Hu Ha. unfold CoolMasterDevice.State, CoolMaster.State.
    generalize (CoolMasterDevice._update_status
                  (CoolMasterDevice.set_last_refresh_time 0 d, (b, w))).
    intros [r st'] Hu Ha. cbn [fst snd] in *. rewrite Hu, Ha. auto.
  - apply read_identity. intros [d0 rest0].
    unfold bind. rewrite !attr_eq.
    destruct (CoolMasterDevice._fan_speed d0); [|reflexivity].
    destruct (CoolMasterDevice._is_on d0); [|reflexivity].
    destruct (CoolMasterDevice._mode d0); [|reflexivity].
    destruct (CoolMasterDevice._swing_mode d0); [|reflexivity].
    destruct (CoolMasterDevice._temperature d0); [|reflexivity].
    destruct (CoolMasterDevice._thermostat d0); [|reflexivity].
    unfold CoolMasterDevice.self. cbn [fst snd]. rewrite attr_eq.
    destruct (CoolMasterDevice._unit d0); reflexivity.
  - split; reflexivity.
Qed.

(** X11: [update_status] refreshes whatever the last-refresh time and the
    auto-update flag are.  When it returns, the seven snapshot attributes
    are set, the last-refresh time is the clock reading (the exchanges do
    not read the clock, so it is the reading the call started with) and one
    reading has been used.  When it raises, the last-refresh time is zero:
    the cache stays invalidated. *)
Theorem forced_refresh (d : CoolMasterDevice.t) (b : CoolMaster.t)
  (w : World) :
  let out := CoolMasterDevice.update_status (d, (b, w)) in
  out = CoolMasterDevice._update_status
          (CoolMasterDevice.set_last_refresh_time 0 d, (b, w))
  /\ match fst out with
     | Ok _ =>
         CoolMasterDevice._last_refresh_time (fst (snd out)) = now w
         /\ clock_of (snd (snd (snd out))) = clock_of (tick w)
         /\ exists on un th te fs md sw,
             snapshot (fst (snd out))
             = (Some on, Some un, Some th, Some te, Some fs, Some md, Some sw)
     | Raise _ =>
         CoolMasterDevice._last_refresh_time (fst (snd out)) = 0
         /\ clock_of (snd (snd (snd out))) = clock_of w
     end.
Proof.
  cbv zeta.
  assert (Heq : CoolMasterDevice.update_status (d, (b, w))
                = CoolMasterDevice._update_status
                    (CoolMasterDevice.set_last_refresh_time 0 d, (b, w)))
    by reflexivity.
  split; [exact Heq|]. rewrite Heq.
  pose proof (update_status_result _ _ _ _ _
                (surjective_pairing
                   (CoolMasterDevice._update_status
                      (CoolMasterDevice.set_last_refresh_time 0 d, (b, w)))))
    as (_ & _ & H).
  revert H. unfold CoolMasterDevice.State, CoolMaster.State.
  generalize (CoolMasterDevice._update_status
                (CoolMasterDevice.set_last_refresh_time 0 d, (b, w))).
  intros [r st'] H. cbn [fst snd] in *. exact H.
Qed.

Lemma read_cached {A} (func : M CoolMasterDevice.State A) d b w :
  (CoolMasterDevice._auto_update d = true ->
   now w - CoolMasterDevice._last_refresh_time d < 1) ->
  CoolMasterDevice.autoupdate_property func (d, (b, w))
  = func (d, (b, if CoolMasterDevice._auto_update d then tick w else w)).
Proof.
  intros H. unfold CoolMasterDevice.autoupdate_property, bind.
  destruct (CoolMasterDevice._auto_update d) eqn:Ea.
  - rewrite (update_if_needed_fresh _ _ _ Ea (H eq_refl)). reflexivity.
  - rewrite (update_if_needed_off _ _ Ea). reflexivity.
Qed.

(** X12: after a refresh that returned, every property read made less than
    one second later by the clock (or at any time with auto-update off)
    returns the refreshed attribute without an exchange: none raises
    AttributeError, and [status] is the dictionary of the eight entries in
    the order of the source. *)
Theorem refresh_then_read (d : CoolMasterDevice.t) (b b' : CoolMaster.t)
  (w w' : World) (st' : CoolMasterDevice.State) :
  CoolMasterDevice._update_status (d, (b, w)) = (Ok tt, st') ->
  (CoolMasterDevice._auto_update d = true -> now w' - now w < 1) ->
  let d' := fst st' in
  let after := (d', (b', if CoolMasterDevice._auto_update d
                         then tick w' else w')) in
  exists on un th te fs md sw,
    snapshot d' = (Some on, Some un, Some th, Some te, Some fs, Some md,
                   Some sw)
    /\ CoolMasterDevice.fan_speed (d', (b', w')) = (Ok fs, after)
    /\ CoolMasterDevice.is_on (d', (b', w')) = (Ok on, after)
    /\ CoolMasterDevice.mode (d', (b', w')) = (Ok md, after)
    /\ CoolMasterDevice.swing (d', (b', w')) = (Ok sw, after)
    /\ CoolMasterDevice.temperature (d', (b', w')) = (Ok te, after)
    /\ CoolMasterDevice.thermostat (d', (b', w')) = (Ok th, after)
    /\ CoolMasterDevice.unit (d', (b', w')) = (Ok un, after)
    /\ CoolMasterDevice.status (d', (b', w'))
       = (Ok [ ("fan_speed", CoolMasterDevice.VStr fs);
               ("is_on", CoolMasterDevice.VBool on);
               ("mode", CoolMasterDevice.VStr md);
               ("swing", match sw with
                         | Some n => CoolMasterDevice.VStr n
                         | None => CoolMasterDevice.VNone
                         end);
               ("temperature", CoolMasterDevice.VFloat te);
               ("thermostat", CoolMasterDevice.VFloat th);
               ("uid", CoolMasterDevice.VStr (CoolMasterDevice._uid d));
               ("unit", CoolMasterDevice.VStr un) ],
          after).
Proof.
  intros H Hfresh d' after.
  destruct (update_status_result _ _ _ _ _ H)
    as (Hu & Ha & Ht & _ & on & un & th & te & fs & md & sw & Hs).
  fold d' in Hu, Ha, Ht, Hs.
  exists on, un, th, te, fs, md, sw. split; [exact Hs|].
  unfold snapshot in Hs. inversion Hs as [[Hon Hun Hth Hte Hfs Hmd Hsw]].
  assert (Hread : forall A (f : M CoolMasterDevice.State A),
             CoolMasterDevice.autoupdate_property f (d', (b', w'))
             = f after).
  { intros A f. rewrite read_cached.
    - unfold after. rewrite Ha. reflexivity.
    - rewrite Ha, Ht. exact Hfresh. }
  unfold CoolMasterDevice.fan_speed, CoolMasterDevice.is_on,
    CoolMasterDevice.mode, CoolMasterDevice.swing,
    CoolMasterDevice.temperature, CoolMasterDevice.thermostat,
    CoolMasterDevice.unit, CoolMasterDevice.status.
  rewrite !Hread. unfold after, bind. rewrite !attr_eq.
  rewrite Hon, Hun, Hth, Hte, Hfs, Hmd, Hsw.
  unfold CoolMasterDevice.self. cbn [fst snd]. rewrite attr_eq, Hun, Hu.
  repeat split; reflexivity.
Qed.

Lemma refresh_then_read_witness :
  let st' := snd (CoolMasterDevice._update_status
                    (dev0, (bridge0, w_stale))) in
  let w' := world_of [] (3400000005 # 2) [] in
  CoolMasterDevice.swing (fst st', (bridge0, w'))
  = (Ok (Some "horizontal"), (fst st', (bridge0, w'))).
Proof.
  intros st' w'.
  assert (H : CoolMasterDevice._update_status (dev0, (bridge0, w_stale))
              = (Ok tt, st')) by (vm_compute; reflexivity).
  destruct (refresh_then_read dev0 bridge0 bridge0 w_stale w' st' H)
    as (on & un & th & te & fs & md & sw & Hs & _ & _ & _ & Hsw & _).
  - intros _. vm_compute. reflexivity.
  - assert (Esw : sw = Some "horizontal").
    { assert (Hc : snapshot (fst st')
                   = (Some false, Some "celsius", Some (Py.Finite (32 # 1)),
                      Some (Py.Finite (493 # 100)), Some "low", Some "dry",
                      Some (Some "horizontal")))
        by (vm_compute; reflexivity).
      rewrite Hc in Hs. inversion Hs. reflexivity. }
    rewrite Esw in Hsw. exact Hsw.
Defined.

(** ** Commands on the wire *)

Lemma append_empty_r (a : string) : a ++ "" = a.
Proof. induction a as [|x a IH]; cbn; [reflexivity | rewrite IH; reflexivity]. Qed.

Lemma replace_uid_on uid : Py.replace "UID" uid "on UID" = "on " ++ uid.
Proof. unfold Py.replace. cbn. rewrite append_empty_r. reflexivity. Qed.

Lemma replace_uid_off uid : Py.replace "UID" uid "off UID" = "off " ++ uid.
Proof. unfold Py.replace. cbn. rewrite append_empty_r. reflexivity. Qed.

Lemma replace_uid_mode uid v :
  In v _MODES -> Py.replace "UID" uid (v ++ " UID") = v ++ " " ++ uid.
Proof.
  intros H. cbn in H.
  destruct H as [<- | [<- | [<- | [<- | [<- | []]]]]];
    unfold Py.replace; cbn; rewrite append_empty_r; reflexivity.
Qed.

Lemma swing_char_cases v c :
  Py.dict_get _SWING_NAME_TO_CHAR v = Some c ->
  In (v, c) _SWING_NAME_TO_CHAR.
Proof.
  cbn.
  destruct (v =? "auto") eqn:E1;
    [apply String.eqb_eq in E1; intros H; inversion H; subst; auto|].
  destruct (v =? "horizontal") eqn:E2;
    [apply String.eqb_eq in E2; intros H; inversion H; subst; auto|].
  destruct (v =? "30") eqn:E3;
    [apply String.eqb_eq in E3; intros H; inversion H; subst; auto|].
  destruct (v =? "45") eqn:E4;
    [apply String.eqb_eq in E4; intros H; inversion H; subst; auto 6|].
  destruct (v =? "60") eqn:E5;
    [apply String.eqb_eq in E5; intros H; inversion H; subst; auto 7|].
  destruct (v =? "vertical") eqn:E6;
    [apply String.eqb_eq in E6; intros H; inversion H; subst; auto 8|].
  discriminate.
Qed.

Lemma replace_uid_swing uid v c :
  Py.dict_get _SWING_NAME_TO_CHAR v = Some c ->
  Py.replace "UID" uid ("swing UID " ++ c) = "swing " ++ uid ++ " " ++ c.
Proof.
  intros H. apply swing_char_cases in H. cbn in H.
  destruct H as [H | [H | [H | [H | [H | [H | []]]]]]];
    inversion H; subst; unfold Py.replace; cbn; reflexivity.
Qed.

(** X13: a command that returns has written exactly the synchronising
    terminator and its request line, which is [on <uid>], [off <uid>],
    [<mode> <uid>] for one of the five modes, [fspeed <uid> <value>],
    [temp <uid> <value>] or [swing <uid> <char>] with the character of the
    swing name, and has set the last-refresh time to zero and nothing else
    on the device.  A command that raises leaves the device object as it
    was: the cache is not invalidated. *)
Theorem command_on_the_wire (c : command) (d : CoolMasterDevice.t)
  (rest : CoolMaster.State) (r : result unit)
  (st' : CoolMasterDevice.State) :
  run_command c (d, rest) = (r, st') ->
  match r with
  | Ok _ =>
      exists request,
        command_line (CoolMasterDevice._uid d) c = Some request
        /\ tx_of (snd st')
           = (tx_of rest ++ [Py.CRLF; (request ++ Py.CRLF)%string])%list
        /\ fst st' = CoolMasterDevice.set_last_refresh_time 0 d
  | Raise _ => fst st' = d
  end.
Proof.
  intros H. pose proof (command_result _ _ _ _ _ H) as Hd.
  destruct r as [u|e]; [|exact Hd].
  assert (Hstep : forall fmt request,
             Py.replace "UID" (CoolMasterDevice._uid d) fmt = request ->
             bind (CoolMasterDevice._make_request fmt)
               (fun _ => CoolMasterDevice._clear_status) (d, rest)
             = (Ok u, st') ->
             tx_of (snd st')
             = (tx_of rest ++ [Py.CRLF; (request ++ Py.CRLF)%string])%list).
  { intros fmt request Hfmt. rewrite request_then_clear_eq, Hfmt.
    destruct (CoolMaster._make_request request rest) as [[x|e] rest'] eqn:E;
      intros H0; inversion H0; subst. cbn [snd].
    exact (make_request_tx _ _ _ _ E). }
  destruct c; cbn [run_command command_line] in *.
  - eexists. split; [reflexivity|]. split; [|exact Hd].
    exact (Hstep _ _ (replace_uid_on _) H).
  - eexists. split; [reflexivity|]. split; [|exact Hd].
    exact (Hstep _ _ (replace_uid_off _) H).
  - unfold CoolMasterDevice.set_mode in H.
    destruct (Py.contains _MODES value) eqn:Ec; [|discriminate].
    eexists. split; [reflexivity|]. split; [|exact Hd].
    apply contains_In in Ec.
    exact (Hstep _ _ (replace_uid_mode _ _ Ec) H).
  - eexists. split; [reflexivity|]. split; [|exact Hd].
    exact (Hstep _ _ (replace_uid_fspeed _ _) H).
  - eexists. split; [reflexivity|]. split; [|exact Hd].
    exact (Hstep _ _ (replace_uid_temp _ _) H).
  - unfold CoolMasterDevice.set_swing in H.
    destruct (Py.dict_contains _SWING_NAME_TO_CHAR value); [|discriminate].
    unfold bind at 1 in H. unfold expect in H.
    destruct (Py.dict_get _SWING_NAME_TO_CHAR value) as [ch|] eqn:Eg;
      [|discriminate].
    unfold ret in H.
    eexists. split; [reflexivity|]. split; [|exact Hd].
    exact (Hstep _ _ (replace_uid_swing _ _ _ Eg) H).
Qed.

Lemma command_on_the_wire_witness :
  let st' := snd (CoolMasterDevice.turn_on (dev_cached, (bridge0, w_turn_on))) in
  tx_of (snd st') = [Py.CRLF; "on 101" ++ Py.CRLF]
  /\ fst st' = CoolMasterDevice.set_last_refresh_time 0 dev_cached.
Proof.
  intros st'.
  assert (H : run_command TurnOn (dev_cached, (bridge0, w_turn_on))
              = (Ok tt, st')) by (vm_compute; reflexivity).
  destruct (command_on_the_wire _ _ _ _ _ H) as (request & Hl & Ht & Hd).
  inversion Hl; subst. split; [exact Ht | exact Hd].
Defined.

(** ** Listing the devices *)

Lemma devices_eq b w :
  devices (b, w)
  = match CoolMaster._make_request "stat2" (b, w) with
    | (Ok response, st') =>
        (Ok (map (fun line =>
                    CoolMasterDevice.__init__ (Py.take 3 line)
                      (CoolMaster._auto_update b))
                 (Py.split Py.CRLF (Py.strip response))),
         st')
    | (Raise e, st') => (Raise e, st')
    end.
Proof.
  unfold devices, CoolMaster.devices, bind, ret.
  destruct (CoolMaster._make_request "stat2" (b, w))
    as [[response|e] st'] eqn:E; [|reflexivity].
  cbn [fst].
  pose proof (make_request_keeps_auto_update _ _ _ _ E) as Hk.
  unfold bridge_auto_update in Hk. cbn [fst] in Hk. rewrite Hk.
  reflexivity.
Qed.

Lemma split_from_not_nil sep s : forall skip, Py.split_from sep skip s <> [].
Proof.
  induction s as [|c s IH]; intros skip; cbn [Py.split_from];
    [discriminate|].
  destruct skip; [|apply IH].
  destruct (prefix sep (String c s)); [discriminate|].
  destruct (Py.split_from sep 0 s); discriminate.
Qed.

(** X14: when [devices] returns, the list is never empty (a listing without
    any line still gives one device, with the empty identifier), and every
    device in it is new: an identifier of at most three characters, the
    bridge's auto-update flag, last-refresh time zero and no snapshot
    attribute set. *)
Theorem devices_are_fresh (b : CoolMaster.t) (w : World)
  (l : list CoolMasterDevice.t) (st' : CoolMaster.State) :
  devices (b, w) = (Ok l, st') ->
  l <> []
  /\ Forall (fun dv =>
               (String.length (CoolMasterDevice._uid dv) <= 3)%nat
               /\ CoolMasterDevice._auto_update dv = CoolMaster._auto_update b
               /\ CoolMasterDevice._last_refresh_time dv = 0
               /\ snapshot dv = (None, None, None, None, None, None, None))
       l
  /\ (forall response,
        fst (CoolMaster._make_request "stat2" (b, w)) = Ok response ->
        Py.strip response = "" ->
        l = [CoolMasterDevice.__init__ "" (CoolMaster._auto_update b)]).
Proof.
  rewrite devices_eq.
  destruct (CoolMaster._make_request "stat2" (b, w)) as [[response|e] st1];
    [|discriminate].
  intros H. inversion H; subst. split; [|split].
  - pose proof (split_from_not_nil Py.CRLF (Py.strip response) 0) as Hn.
    unfold Py.split. destruct (Py.split_from _ _ _); [contradiction|].
    cbn [map]. discriminate.
  - apply Forall_forall. intros dv Hin. apply in_map_iff in Hin.
    destruct Hin as (line0 & <- & _).
    split; [exact (length_take 3 line0)|]. repeat split.
  - intros response0 Hr Hs. cbn [fst] in Hr. inversion Hr; subst.
    rewrite Hs. reflexivity.
Qed.

Lemma devices_are_fresh_witness :
  Forall (fun dv =>
            (String.length (CoolMasterDevice._uid dv) <= 3)%nat
            /\ CoolMasterDevice._auto_update dv = true
            /\ CoolMasterDevice._last_refresh_time dv = 0
            /\ snapshot dv = (None, None, None, None, None, None, None))
    [CoolMasterDevice.__init__ "101" true;
     CoolMasterDevice.__init__ "102" true].
Proof.
  pose (out := devices (bridge0, w_two_units)).
  assert (H : devices (bridge0, w_two_units)
              = (Ok [CoolMasterDevice.__init__ "101" true;
                     CoolMasterDevice.__init__ "102" true], snd out))
    by (vm_compute; reflexivity).
  destruct (devices_are_fresh _ _ _ _ H) as (_ & Hall & _).
  exact Hall.
Defined.

(** ** The swing mode a refresh stores *)

(** X15: whatever swing mode a refresh stores can be given back: a stored
    name is a key of the name-to-character table, its character is the one
    the bridge answered (whitespace aside) and maps to that name, so
    [set_swing] accepts it; [None] is stored for an empty answer and for
    the characters [-] and [0], and for nothing else. *)
Theorem stored_swing_is_settable (swing_line : string)
  (d d' : CoolMasterDevice.t) (rest rest' : CoolMaster.State) :
  CoolMasterDevice.assign_swing_mode swing_line (d, rest)
  = (Ok tt, (d', rest')) ->
  match CoolMasterDevice._swing_mode d' with
  | Some (Some name) =>
      Py.dict_get _SWING_NAME_TO_CHAR name = Some (Py.strip swing_line)
      /\ Py.dict_get _SWING_CHAR_TO_NAME (Py.strip swing_line)
         = Some (Some name)
      /\ Py.dict_contains _SWING_NAME_TO_CHAR name = true
  | Some None =>
      swing_line = "" \/ Py.strip swing_line = "-"
      \/ Py.strip swing_line = "0"
  | None => False
  end.
Proof.
  rewrite assign_swing_mode_eq.
  destruct (swing_line =? "") eqn:E0.
  - apply String.eqb_eq in E0. intros H. inversion H; subst. cbn. auto.
  - destruct (Py.dict_get _SWING_CHAR_TO_NAME (Py.strip swing_line))
      as [name|] eqn:Eg; [|discriminate].
    intros H. inversion H; subst. cbn [CoolMasterDevice.set_swing_mode
                                        CoolMasterDevice._swing_mode].
    revert Eg. generalize (Py.strip swing_line) as key. intros key.
    cbn [Py.dict_get _SWING_CHAR_TO_NAME].
    repeat match goal with
           | |- context [key =? ?k] =>
               let E := fresh "E" in
               destruct (key =? k) eqn:E;
               [apply String.eqb_eq in E; subst key;
                intros Hk; inversion Hk; subst; cbn; auto|]
           end.
    discriminate.
Qed.

Lemma stored_swing_is_settable_witness :
  Py.dict_contains _SWING_NAME_TO_CHAR "vertical" = true.
Proof.
  pose proof (stored_swing_is_settable ("v" ++ Py.CRLF) dev_cached
                (CoolMasterDevice.set_swing_mode (Some "vertical") dev_cached)
                (bridge0, w_fresh) (bridge0, w_fresh) eq_refl) as H.
  cbn [CoolMasterDevice.set_swing_mode CoolMasterDevice._swing_mode] in H.
  destruct H as (_ & _ & H). exact H.
Defined.

(** ** The fields of a status line *)

Lemma rev_onto_append s : forall acc,
  Py.rev_onto s acc = Py.reversed s ++ acc.
Proof.
  unfold Py.reversed. induction s as [|c s IH]; intros acc; cbn.
  - reflexivity.
  - rewrite (IH (String c acc)), (IH (String c "")).
    rewrite append_assoc. reflexivity.
Qed.

Lemma reversed_cons c s : Py.reversed (String c s) = Py.reversed s ++ String c "".
Proof. unfold Py.reversed at 1. cbn. apply rev_onto_append. Qed.

Lemma reversed_append a b :
  Py.reversed (a ++ b) = Py.reversed b ++ Py.reversed a.
Proof.
  induction a as [|c a IH]; cbn [append].
  - change (Py.reversed "") with "". rewrite append_empty_r. reflexivity.
  - rewrite !reversed_cons, IH, append_assoc. reflexivity.
Qed.













(** ** The bridge's settings ([info]) *)

Lemma find_colon_none s :
  has_char ":" s = false -> Py.find_colon s = None.
Proof.
  induction s as [|c s IH]; [reflexivity|].
  cbn. intros H. apply orb_false_elim in H. destruct H as [Hc Hs].
  rewrite Hc, (IH Hs). reflexivity.
Qed.

Lemma find_colon_some s :
  has_char ":" s = true -> exists b a, Py.find_colon s = Some (b, a).
Proof.
  induction s as [|c s IH]; [discriminate|].
  cbn. destruct (c =? ":")%char; [eauto|].
  cbn. intros H. destruct (IH H) as (b & a & ->). eauto.
Qed.

Lemma find_colon_first b a :
  has_char ":" b = false -> Py.find_colon (b ++ String ":" a) = Some (b, a).
Proof.
  induction b as [|c b IH]; [reflexivity|].
  cbn. intros H. apply orb_false_elim in H. destruct H as [Hc Hs].
  rewrite Hc, (IH Hs). reflexivity.
Qed.

Lemma split_colon_pair line :
  has_char ":" line = true ->
  exists kv, Py.re_split_colon_1 line = pair_item kv.
Proof.
  intros H. unfold Py.re_split_colon_1.
  destruct (find_colon_some _ H) as (b & a & ->).
  exists (Py.rstrip b, Py.lstrip a). reflexivity.
Qed.

Lemma dict_get_set {V} k (v : V) d k' :
  Py.dict_get (Py.dict_set k v d) k'
  = if k' =? k then Some v else Py.dict_get d k'.
Proof.
  induction d as [|[k0 v0] d IH]; cbn.
  - reflexivity.
  - destruct (k =? k0) eqn:E; cbn.
    + apply String.eqb_eq in E. subst k0. destruct (k' =? k); reflexivity.
    + rewrite IH. destruct (k' =? k0) eqn:E0; [|reflexivity].
      apply String.eqb_eq in E0. subst k0.
      rewrite String.eqb_sym, E. reflexivity.
Qed.

Lemma dict_get_app {V} (a b : list (string * V)) k :
  Py.dict_get (a ++ b)%list k
  = match Py.dict_get a k with
    | Some v => Some v
    | None => Py.dict_get b k
    end.
Proof.
  induction a as [|[k0 v0] a IH]; cbn; [reflexivity|].
  destruct (k =? k0); [reflexivity | exact IH].
Qed.

Lemma dict_keys_set {V} k (v : V) d :
  NoDup (Py.dict_keys d) -> NoDup (Py.dict_keys (Py.dict_set k v d))
  /\ (forall x, In x (Py.dict_keys (Py.dict_set k v d))
                <-> x = k \/ In x (Py.dict_keys d)).
Proof.
  unfold Py.dict_keys. induction d as [|[k0 v0] d IH]; cbn; intros Hn.
  - split; [repeat constructor; auto | intros x; intuition].
  - inversion Hn as [|? ? Hnot Hrest]; subst.
    destruct (k =? k0) eqn:E; cbn.
    + apply String.eqb_eq in E. subst k0.
      split; [constructor; assumption | intros x; intuition].
    + destruct (IH Hrest) as [IHn IHi]. apply String.eqb_neq in E. split.
      * constructor; [|exact IHn]. intros Hin. apply IHi in Hin.
        destruct Hin as [-> | Hin]; [apply E; reflexivity | contradiction].
      * intros x. rewrite IHi. intuition.
Qed.

(** The dictionary built from pairs: its keys are distinct and a key has the
    value of the last pair that names it. *)
Lemma dict_of_pairs pairs : forall i d,
  NoDup (Py.dict_keys d) ->
  exists d',
    Py.dict_of_seq_from i d (map pair_item pairs) = inl d'
    /\ NoDup (Py.dict_keys d')
    /\ forall k, Py.dict_get d' k
                 = match Py.dict_get (rev pairs) k with
                   | Some v => Some v
                   | None => Py.dict_get d k
                   end.
Proof.
  induction pairs as [|[k v] pairs IH]; intros i d Hn.
  - exists d. cbn. auto.
  - cbn [map pair_item fst snd Py.dict_of_seq_from].
    destruct (IH (S i) (Py.dict_set k v d)
                (proj1 (dict_keys_set k v d Hn))) as (d' & -> & Hn' & Hg).
    exists d'. split; [reflexivity|]. split; [exact Hn'|].
    intros k0. rewrite Hg. cbn [rev]. rewrite dict_get_app, dict_get_set.
    cbn [Py.dict_get].
    destruct (Py.dict_get (rev pairs) k0); [reflexivity|].
    destruct (k0 =? k); reflexivity.
Qed.

Lemma info_eq st :
  CoolMaster.info st
  = match CoolMaster._make_request "set" st with
    | (Ok response, st') =>
        match Py.dict_of_seq
                (map Py.re_split_colon_1
                   (Py.split Py.CRLF (Py.strip response))) with
        | inl d => (Ok d, st')
        | inr (i, n) =>
            (Raise (ValueError ("dictionary update sequence element #"
                                ++ Py.str_of_nat i ++ " has length "
                                ++ Py.str_of_nat n ++ "; 2 is required")),
             st')
        end
    | (Raise e, st') => (Raise e, st')
    end.
Proof.
  unfold CoolMaster.info, bind.
  destruct (CoolMaster._make_request "set" st) as [[response|e] st'];
    [|reflexivity].
  destruct (Py.dict_of_seq _) as [d|[i n]]; reflexivity.
Qed.

(** X17: when the answer to [set] has a colon on every line, [info] returns
    a dictionary with distinct keys in which a key has the value of the last
    line that names it; the key of a line is the text before its first
    colon without trailing whitespace, the value the text after it without
    leading whitespace. *)
Theorem info_lookup (st st' : CoolMaster.State) (response : string) :
  CoolMaster._make_request "set" st = (Ok response, st') ->
  let lines := Py.split Py.CRLF (Py.strip response) in
  Forall (fun line => has_char ":" line = true) lines ->
  exists pairs d,
    map Py.re_split_colon_1 lines = map pair_item pairs
    /\ (forall line b a,
          In line lines -> Py.find_colon line = Some (b, a) ->
          In (Py.rstrip b, Py.lstrip a) pairs)
    /\ CoolMaster.info st = (Ok d, st')
    /\ NoDup (Py.dict_keys d)
    /\ forall k, Py.dict_get d k = Py.dict_get (rev pairs) k.
Proof.
  intros E lines Hall.
  assert (Hp : exists pairs,
             map Py.re_split_colon_1 lines = map pair_item pairs
             /\ forall line b a,
                 In line lines -> Py.find_colon line = Some (b, a) ->
                 In (Py.rstrip b, Py.lstrip a) pairs).
  { clear E. induction lines as [|line rest IH].
    - exists []. split; [reflexivity | intros ? ? ? []].
    - inversion Hall as [|? ? Hl Hr]; subst.
      destruct (IH Hr) as (pairs & Hm & Hin).
      destruct (find_colon_some _ Hl) as (b & a & Hf).
      exists ((Py.rstrip b, Py.lstrip a) :: pairs). split.
      + cbn [map]. rewrite Hm. unfold Py.re_split_colon_1. rewrite Hf.
        reflexivity.
      + intros line0 b0 a0 [<- | Hi] Hf0.
        * rewrite Hf in Hf0. inversion Hf0; subst. left. reflexivity.
        * right. exact (Hin _ _ _ Hi Hf0). }
  destruct Hp as (pairs & Hm & Hin).
  destruct (dict_of_pairs pairs 0 [] (NoDup_nil _)) as (d & Hd & Hn & Hg).
  exists pairs, d. split; [exact Hm|]. split; [exact Hin|].
  rewrite info_eq, E. fold lines. rewrite Hm. unfold Py.dict_of_seq.
  rewrite Hd. split; [reflexivity|]. split; [exact Hn|].
  intros k. rewrite Hg. destruct (Py.dict_get (rev pairs) k); reflexivity.
Qed.

Lemma info_lookup_witness :
  exists d,
    fst (CoolMaster.info (bridge0, w_settings)) = Ok d
    /\ NoDup (Py.dict_keys d)
    /\ Py.dict_get d "Baud" = Some "9600"
    /\ Py.dict_get d "Models" = Some "2".
Proof.
  pose (st' := snd (CoolMaster._make_request "set" (bridge0, w_settings))).
  assert (E : CoolMaster._make_request "set" (bridge0, w_settings)
              = (Ok ("Baud : 9600" ++ Py.CRLF ++ "Models : 2" ++ Py.CRLF),
                 st')) by (vm_compute; reflexivity).
  destruct (info_lookup _ _ _ E) as (pairs & d & _ & _ & Hi & Hn & _).
  - vm_compute. repeat constructor.
  - exists d. split; [rewrite Hi; reflexivity|]. split; [exact Hn|].
    assert (Hd : fst (CoolMaster.info (bridge0, w_settings))
                 = Ok [("Baud", "9600"); ("Models", "2")])
      by (vm_compute; reflexivity).
    rewrite Hi in Hd. inversion Hd. split; reflexivity.
Defined.

Lemma dict_of_seq_stops pairs item rest : forall i d,
  (forall k v, item <> [k; v]) ->
  Py.dict_of_seq_from i d (map pair_item pairs ++ item :: rest)%list
  = inr ((i + List.length pairs)%nat, List.length item).
Proof.
  induction pairs as [|[k v] pairs IH]; intros i d Hitem.
  - cbn [map app List.length]. rewrite Nat.add_0_r.
    cbn [Py.dict_of_seq_from].
    destruct item as [|a [|b [|c item]]]; try reflexivity.
    exfalso. exact (Hitem a b eq_refl).
  - cbn [map pair_item fst snd app Py.dict_of_seq_from List.length].
    rewrite IH by exact Hitem. f_equal. f_equal. lia.
Qed.

(** X18: when a line of the answer to [set] has no colon, [info] raises the
    ValueError of [dict] that names the index of the first such line: the
    item there has length 1 where 2 is required. *)
Theorem info_line_without_colon (st st' : CoolMaster.State)
  (response : string) (before after : list string) (line : string) :
  CoolMaster._make_request "set" st = (Ok response, st') ->
  Py.split Py.CRLF (Py.strip response) = (before ++ line :: after)%list ->
  Forall (fun l => has_char ":" l = true) before ->
  has_char ":" line = false ->
  CoolMaster.info st
  = (Raise (ValueError ("dictionary update sequence element #"
                        ++ Py.str_of_nat (List.length before)
                        ++ " has length 1; 2 is required")), st').
Proof.
  intros E Hs Hb Hl. rewrite info_eq, E, Hs.
  assert (Hp : exists pairs,
             map Py.re_split_colon_1 before = map pair_item pairs).
  { clear Hs. induction before as [|l0 rest IH].
    - exists []. reflexivity.
    - inversion Hb as [|? ? H0 Hr]; subst.
      destruct (IH Hr) as (pairs & Hm).
      destruct (split_colon_pair _ H0) as (kv & Hkv).
      exists (kv :: pairs). cbn [map]. rewrite Hm, Hkv. reflexivity. }
  destruct Hp as (pairs & Hm).
  rewrite map_app. cbn [map]. rewrite Hm.
  unfold Py.dict_of_seq, Py.re_split_colon_1 at 1.
  rewrite (find_colon_none _ Hl).
  rewrite dict_of_seq_stops by (intros k v; discriminate).
  cbn [Nat.add List.length].
  rewrite <- (length_map pair_item pairs), <- Hm, length_map.
  reflexivity.
Qed.

Lemma info_line_without_colon_witness :
  fst (CoolMaster.info (bridge0, w_settings_bad))
  = Raise (ValueError
             "dictionary update sequence element #1 has length 1; 2 is required").
Proof.
  pose (st' := snd (CoolMaster._make_request "set"
                      (bridge0, w_settings_bad))).
  assert (E : CoolMaster._make_request "set" (bridge0, w_settings_bad)
              = (Ok ("Baud : 9600" ++ Py.CRLF ++ "Models 2" ++ Py.CRLF),
                 st')) by (vm_compute; reflexivity).
  rewrite (info_line_without_colon _ _ _ ["Baud : 9600"] [] "Models 2" E).
  - reflexivity.
  - vm_compute. reflexivity.
  - repeat constructor.
  - reflexivity.
Defined.

Lemma all_space_append a b :
  all_space (a ++ b) = all_space a && all_space b.
Proof.
  induction a as [|c a IH]; [reflexivity|].
  cbn. rewrite IH. apply andb_assoc.
Qed.

Lemma all_space_reversed s : all_space s = true -> all_space (Py.reversed s) = true.
Proof.
  induction s as [|c s IH]; [reflexivity|].
  cbn [all_space]. intros H. apply andb_prop in H. destruct H as [Hc Hs].
  rewrite reversed_cons, all_space_append, (IH Hs). cbn. rewrite Hc.
  reflexivity.
Qed.

Lemma all_space_no_colon s : all_space s = true -> has_char ":" s = false.
Proof.
  induction s as [|c s IH]; [reflexivity|].
  cbn [all_space has_char]. intros H. apply andb_prop in H.
  destruct H as [Hc Hs]. rewrite (IH Hs), orb_false_r.
  destruct (c =? ":")%char eqn:E; [|reflexivity].
  apply Ascii.eqb_eq in E. subst c. discriminate.
Qed.

Lemma reversed_involutive s : Py.reversed (Py.reversed s) = s.
Proof.
  induction s as [|c s IH]; [reflexivity|].
  rewrite reversed_cons, reversed_append, IH. reflexivity.
Qed.

Lemma ends_nonspace_inv k :
  ends_nonspace k = true ->
  exists a c, k = a ++ String c "" /\ Py.isspace c = false.
Proof.
  induction k as [|x k IH]; [discriminate|].
  destruct k as [|y k'].
  - cbn. intros H. apply negb_true_iff in H. exists "", x. auto.
  - intros H. destruct (IH H) as (a & c & -> & Hc).
    exists (String x a), c. auto.
Qed.

Lemma lstrip_spaces ws v :
  all_space ws = true -> (v = "" \/ starts_nonspace v = true) ->
  Py.lstrip (ws ++ v) = v.
Proof.
  intros Hws Hv. induction ws as [|c ws IH].
  - cbn [append]. destruct Hv as [-> | Hv]; [reflexivity|].
    destruct v as [|x v]; [discriminate|].
    cbn in *. apply negb_true_iff in Hv. rewrite Hv. reflexivity.
  - cbn [all_space] in Hws. apply andb_prop in Hws. destruct Hws as [Hc Hs].
    cbn [append Py.lstrip]. rewrite Hc. exact (IH Hs).
Qed.

Lemma rstrip_spaces key ws :
  all_space ws = true -> (key = "" \/ ends_nonspace key = true) ->
  Py.rstrip (key ++ ws) = key.
Proof.
  intros Hws Hk. unfold Py.rstrip. rewrite reversed_append.
  rewrite lstrip_spaces.
  - apply reversed_involutive.
  - apply all_space_reversed. exact Hws.
  - destruct Hk as [-> | Hk]; [left; reflexivity|].
    right. destruct (ends_nonspace_inv _ Hk) as (a & c & -> & Hc).
    rewrite reversed_append. cbn. rewrite Hc. reflexivity.
Qed.

(** X19: a line made of a key, whitespace, a colon, whitespace and a value
    is split back into the key and the value, provided the key has no
    colon and does not end with whitespace and the value does not start
    with whitespace; colons inside the value stay in the value.  A line
    without a colon is not split. *)
Theorem setting_line_round_trip (key ws1 ws2 value : string) :
  has_char ":" key = false ->
  (key = "" \/ ends_nonspace key = true) ->
  all_space ws1 = true -> all_space ws2 = true ->
  (value = "" \/ starts_nonspace value = true) ->
  Py.re_split_colon_1 (key ++ ws1 ++ ":" ++ ws2 ++ value) = [key; value]
  /\ (forall line, has_char ":" line = false ->
                   Py.re_split_colon_1 line = [line]).
Proof.
  intros Hk He H1 H2 Hv. split.
  - unfold Py.re_split_colon_1.
    rewrite <- (append_assoc key ws1).
    change (":" ++ ws2 ++ value) with (String ":" (ws2 ++ value)).
    rewrite find_colon_first.
    + rewrite (rstrip_spaces key ws1 H1 He), (lstrip_spaces ws2 value H2 Hv).
      reflexivity.
    + rewrite has_char_append, Hk, (all_space_no_colon _ H1). reflexivity.
  - intros line Hl. unfold Py.re_split_colon_1.
    rewrite (find_colon_none _ Hl). reflexivity.
Qed.

Lemma setting_line_round_trip_witness :
  Py.re_split_colon_1 ("Baud" ++ " " ++ ":" ++ " " ++ "9600")
  = ["Baud"; "9600"].
Proof.
  apply setting_line_round_trip; try reflexivity; right; reflexivity.
Defined.
